(** * Authentication and user-management controllers

    A shallow embedding of the request handlers of
    [src/unnamed/part_000] ([authenticate], [refresh]) and of
    [src/server/src/controllers/users.ts] ([getUsers], [getUserById],
    [createUser], [updateUser], [deleteUser], [getCurrentUser] and their
    helpers).

    A handler is a program over the calls it makes on the database client
    ([Prog]); running a program against a store ([run]) gives what the
    handler sends or throws, together with the store it leaves behind. *)

From Stdlib Require Import ZArith List String Bool Lia DecimalString.
Import ListNotations.

Local Open Scope string_scope.
Local Open Scope Z_scope.

Set Warnings "-register-all".

(** ** JavaScript values *)

(** A JS number as far as the controllers observe it.  Identifiers held by
    the store are integers; a number obtained from a path parameter or from
    a token claim may also be [NaN], or some other value ([NonInt]: a
    non-integer or an infinity), which is truthy and equal to no integer. *)
Inductive number : Type :=
| NaN
| Int (z : Z)
| NonInt.

Inductive JsValue : Type :=
| JUndefined
| JNull
| JBool (b : bool)
| JNum (n : number)
| JStr (s : string)
| JArr (items : list JsValue)
| JObj (fields : list (string * JsValue)).

(** A plain object: its own properties, in insertion order. *)
Definition JsObject : Type := list (string * JsValue).

(** ToBoolean on numbers: [NaN] and zero are falsy. *)
Definition number_truthy (n : number) : bool :=
  match n with
  | NaN => false
  | Int z => negb (z =? 0)
  | NonInt => true
  end.

(** ToBoolean: [undefined], [null], [false], [0], [NaN] and the empty string
    are falsy, everything else is truthy. *)
Definition truthy (v : JsValue) : bool :=
  match v with
  | JUndefined | JNull => false
  | JBool b => b
  | JNum n => number_truthy n
  | JStr s => negb (s =? "")%string
  | JArr _ | JObj _ => true
  end.

(** [n === z] for an integer [z]. *)
Definition number_is (n : number) (z : Z) : bool :=
  match n with
  | Int z' => z' =? z
  | NaN | NonInt => false
  end.

(** [v === z] for an integer [z]: strict equality never coerces. *)
Definition is_int (v : JsValue) (z : Z) : bool :=
  match v with
  | JNum n => number_is n z
  | _ => false
  end.

(** [v === s] for a string [s]. *)
Definition is_string (v : JsValue) (s : string) : bool :=
  match v with
  | JStr s' => (s' =? s)%string
  | _ => false
  end.

(** Property lookup among an object's own properties. *)
Fixpoint lookup (k : string) (o : JsObject) : option JsValue :=
  match o with
  | [] => None
  | (k', v) :: o' => if (k' =? k)%string then Some v else lookup k o'
  end.

(** [o[k]] and [o?.[k]]: a missing property reads as [undefined]. *)
Definition get (o : JsObject) (k : string) : JsValue :=
  match lookup k o with
  | Some v => v
  | None => JUndefined
  end.

Definition get_opt (o : option JsObject) (k : string) : JsValue :=
  match o with
  | Some o' => get o' k
  | None => JUndefined
  end.

(** lodash [omit(o, keys)]: a copy of [o] without the listed properties. *)
Definition omit (o : JsObject) (keys : list string) : JsObject :=
  filter (fun kv => negb (existsb (String.eqb (fst kv)) keys)) o.

(** [{ ...o, k: v }]: an existing property keeps its place and takes the new
    value, a new property is added last. *)
Fixpoint set_prop (k : string) (v : JsValue) (o : JsObject) : JsObject :=
  match o with
  | [] => [(k, v)]
  | (k', v') :: o' =>
      if (k' =? k)%string then (k, v) :: o' else (k', v') :: set_prop k v o'
  end.

(** ** Errors of [@/common/errors] and of the runtime *)

Inductive AppError : Type :=
| InvalidTokenError (message : string)
| UnauthorizedError (message : string)
| ValidationError (message : string) (data : JsValue)
| EntityNotFoundError (entity : string) (data : JsValue)
| TypeError
| StoreError (reason : string).

Inductive ErrorKind : Type :=
| InvalidToken | Unauthorized | Validation | EntityNotFound | Internal.

Definition kind (e : AppError) : ErrorKind :=
  match e with
  | InvalidTokenError _ => InvalidToken
  | UnauthorizedError _ => Unauthorized
  | ValidationError _ _ => Validation
  | EntityNotFoundError _ _ => EntityNotFound
  | TypeError | StoreError _ => Internal
  end.

(** ** Entities *)

Record Role : Type := mkRole {
  role_id : Z;
  role_name : string
}.

Record User : Type := mkUser {
  id : Z;
  firstName : string;
  lastName : string;
  email : string;
  password : string;
  roleId : Z
}.

(** [UserWithRole] of [@/types]: a user row with its role included. *)
Record UserWithRole : Type := mkUserWithRole {
  user_row : User;
  role : Role
}.

Record Ticket : Type := mkTicket {
  ticket_id : Z;
  assigneeId : Z;
  supervisorId : Z
}.

Definition obj_of_role (r : Role) : JsObject :=
  [ ("id", JNum (Int (role_id r))); ("name", JStr (role_name r)) ].

(** The object the database client hands back for a user with its role. *)
Definition obj_of_user (u : UserWithRole) : JsObject :=
  [ ("id", JNum (Int (id (user_row u))));
    ("firstName", JStr (firstName (user_row u)));
    ("lastName", JStr (lastName (user_row u)));
    ("email", JStr (email (user_row u)));
    ("password", JStr (password (user_row u)));
    ("roleId", JNum (Int (roleId (user_row u))));
    ("role", JObj (obj_of_role (role u))) ].

(** Request data after [validateAndParse]. *)
Record LoginRequest : Type := mkLoginRequest { token : string }.

Record RefreshRequest : Type := mkRefreshRequest { refreshToken : string }.

Record UserData : Type := mkUserData {
  d_firstName : string;
  d_lastName : string;
  d_email : string;
  d_password : string
}.

(** Modelled from the spec: the update schema ("partial fields + roleId",
    [@/schemas/users] is not part of the sources).  The email is a string, as
    [validateExistingEmail(email: string, ...)] takes it; the other fields
    may be left out. *)
Record UserPatch : Type := mkUserPatch {
  p_firstName : option string;
  p_lastName : option string;
  p_email : string;
  p_password : option string
}.

Record Request : Type := mkRequest {
  params_userId : string;
  body : JsValue;
  currentUser : UserWithRole
}.

(** ** Programs over the database client *)

Inductive UserWhere : Type :=
| WhereId (v : JsValue)
| WhereEmail (v : JsValue).

(** The calls the controllers make on [db], indexed by what they resolve
    to. *)
Inductive DbCall : Type -> Type :=
| UserFindMany : DbCall (list UserWithRole)
| UserFindUnique (w : UserWhere) : DbCall (option User)
| UserFindUniqueWithRole (w : UserWhere) : DbCall (option UserWithRole)
| UserCreate (data : UserData) (connectRole : number) : DbCall UserWithRole
| UserUpdate (w : UserWhere) (data : UserPatch) (connectRole : number)
    : DbCall UserWithRole
| UserDelete (w : UserWhere) : DbCall User
| TicketFindMany (assigneeOrSupervisor : number) : DbCall (list Ticket).

(** An async handler body: it returns, throws, or awaits a database call and
    goes on with the result. *)
Inductive Prog (A : Type) : Type :=
| Ret (a : A)
| Throw (e : AppError)
| Call {R : Type} (c : DbCall R) (k : R -> Prog A).

Arguments Ret {A} a.
Arguments Throw {A} e.
Arguments Call {A R} c k.

Fixpoint bind {A B : Type} (m : Prog A) (f : A -> Prog B) : Prog B :=
  match m with
  | Ret a => f a
  | Throw e => Throw e
  | Call c k => Call c (fun r => bind (k r) f)
  end.

Definition await {R : Type} (c : DbCall R) : Prog R := Call c Ret.

Notation "x <- m ;; k" := (bind m (fun x => k))
  (at level 61, m at next level, right associativity).
Notation "m ;;; k" := (bind m (fun _ => k))
  (at level 61, right associativity).

(** A synchronous helper that returns or throws. *)
Definition attempt {A : Type} (r : AppError + A) : Prog A :=
  match r with
  | inl e => Throw e
  | inr a => Ret a
  end.

(** ** What the controllers import from outside the sources *)

(** The built-in conversion [Number(string)]. *)
Class JsBuiltins : Type := {
  Number : string -> number
}.

(** [@/utils/authToken].  [readToken] is used through [?.], so it may resolve
    to nothing; [verifyRefreshToken] is dereferenced directly.  Either may
    throw.  The generators take the claims and give the token string. *)
Class AuthToken : Type := {
  readToken : string -> AppError + option JsObject;
  verifyRefreshToken : string -> AppError + JsObject;
  generateAccessToken : JsObject -> string;
  generateRefreshToken : JsObject -> string
}.

(** [@/schemas/authentication] and [@/schemas/users]: a schema accepts a
    request body and gives the parsed data, or rejects it.  The user schemas
    give [roleId] next to the remaining fields, as the handlers destructure
    them. *)
Class Schemas : Type := {
  LoginRequestSchema : JsValue -> option LoginRequest;
  RefreshRequestSchema : JsValue -> option RefreshRequest;
  UserCreateRequestSchema : JsValue -> option (number * UserData);
  UserUpdateRequestSchema : JsValue -> option (number * UserPatch)
}.

(** Modelled from the spec: [validateAndParse] of [@/utils/validation] is not
    part of the sources; "a ValidationError is raised on shape violations,
    handled before any store mutation". *)
Definition validateAndParse {A : Type} (schema : JsValue -> option A)
    (input : JsValue) : Prog A :=
  match schema input with
  | Some data => Ret data
  | None => Throw (ValidationError "Invalid request." JUndefined)
  end.

(** The array extension [isEmpty] the ticket check calls. *)
Definition isEmpty {A : Type} (xs : list A) : bool :=
  match xs with
  | [] => true
  | _ :: _ => false
  end.

(** ** src/unnamed/part_000: authentication *)

Section Authentication.
Context `{AuthToken} `{Schemas}.

Definition authenticate (req : Request) : Prog JsValue :=
  data <- validateAndParse LoginRequestSchema (body req) ;;
  tokenData <- attempt (readToken (token data)) ;;
  let userEmail := get_opt tokenData "email" in
  if negb (truthy userEmail)
  then Throw (InvalidTokenError "Token inválido.")
  else
    user <- await (UserFindUnique (WhereEmail userEmail)) ;;
    match user with
    | None => Throw (UnauthorizedError "El usuario no existe.")
    | Some user =>
        Ret (JObj
               [ ("message", JStr "Inicio de sesión exitoso.");
                 ("accessToken",
                  JStr (generateAccessToken
                          [("userId", JNum (Int (id user)))]));
                 ("refreshToken",
                  JStr (generateRefreshToken
                          [("userId", JNum (Int (id user)))])) ])
    end.

Definition refresh (req : Request) : Prog JsValue :=
  data <- validateAndParse RefreshRequestSchema (body req) ;;
  payload <- attempt (verifyRefreshToken (refreshToken data)) ;;
  let userId := get payload "userId" in
  if negb (truthy userId)
  then Throw (InvalidTokenError "Token de actualización inválido.")
  else
    user <- await (UserFindUnique (WhereId userId)) ;;
    match user with
    | None => Throw (InvalidTokenError "Usuario no encontrado.")
    | Some user =>
        Ret (JObj
               [ ("message", JStr "Validación de sesión exitosa.");
                 ("accessToken",
                  JStr (generateAccessToken
                          [("userId", JNum (Int (id user)))]));
                 ("refreshToken",
                  JStr (generateRefreshToken
                          [("userId", JNum (Int (id user)))])) ])
    end.

(** The body both handlers send on success. *)
Definition sessionResponse (message : string) (user : User) : JsValue :=
  JObj [ ("message", JStr message);
         ("accessToken",
          JStr (generateAccessToken [("userId", JNum (Int (id user)))]));
         ("refreshToken",
          JStr (generateRefreshToken [("userId", JNum (Int (id user)))])) ].

End Authentication.

(** ** src/server/src/controllers/users.ts *)

Definition mapToUserResponse (user : UserWithRole) : JsValue :=
  JObj (set_prop "fullName"
          (JStr (firstName (user_row user) ++ " " ++ lastName (user_row user)))
          (omit (obj_of_user user) ["password"])).

Definition validateUser (userId : number) : Prog unit :=
  user <- await (UserFindUnique (WhereId (JNum userId))) ;;
  match user with
  | None =>
      Throw (EntityNotFoundError "Usuario" (JObj [("id", JNum userId)]))
  | Some _ => Ret tt
  end.

(** [userId && user.id === userId], for the optional parameter [userId]. *)
Definition isSameUser (userId : option number) (user : User) : bool :=
  match userId with
  | None => false
  | Some n => number_truthy n && number_is n (id user)
  end.

Definition validateExistingEmail (email : string) (userId : option number)
    : Prog unit :=
  user <- await (UserFindUnique (WhereEmail (JStr email))) ;;
  match user with
  | None => Ret tt
  | Some user =>
      if isSameUser userId user
      then Ret tt
      else Throw (ValidationError "El correo electrónico ya está en uso."
                    (JObj [("email", JStr email)]))
  end.

Section Users.
Context `{JsBuiltins} `{Schemas}.

Definition getUsers (_req : Request) : Prog JsValue :=
  users <- await UserFindMany ;;
  Ret (JArr (map mapToUserResponse users)).

Definition getUserById (req : Request) : Prog JsValue :=
  let userId := Number (params_userId req) in
  validateUser userId ;;;
  user <- await (UserFindUniqueWithRole (WhereId (JNum userId))) ;;
  match user with
  | Some user => Ret (mapToUserResponse user)
  | None => Throw TypeError
  end.

Definition createUser (req : Request) : Prog JsValue :=
  parsed <- validateAndParse UserCreateRequestSchema (body req) ;;
  let '(roleId, data) := parsed in
  validateExistingEmail (d_email data) None ;;;
  user <- await (UserCreate data roleId) ;;
  Ret (mapToUserResponse user).

Definition updateUser (req : Request) : Prog JsValue :=
  let userId := Number (params_userId req) in
  parsed <- validateAndParse UserUpdateRequestSchema (body req) ;;
  let '(roleId, data) := parsed in
  validateUser userId ;;;
  validateExistingEmail (p_email data) (Some userId) ;;;
  user <- await (UserUpdate (WhereId (JNum userId)) data roleId) ;;
  Ret (mapToUserResponse user).

Definition deleteUser (req : Request) : Prog JsValue :=
  let userId := Number (params_userId req) in
  if number_is userId (id (user_row (currentUser req)))
  then Throw (ValidationError "La cuenta actual no puede ser eliminada."
                JUndefined)
  else
    validateUser userId ;;;
    tickets <- await (TicketFindMany userId) ;;
    if negb (isEmpty tickets)
    then Throw (ValidationError "El usuario tiene tickets asociados."
                  JUndefined)
    else
      await (UserDelete (WhereId (JNum userId))) ;;;
      Ret (JObj [("message", JStr "Usuario eliminado.")]).

Definition getCurrentUser (req : Request) : Prog JsValue :=
  Ret (mapToUserResponse (currentUser req)).

End Users.

(** ** The store behind the database client *)

(** Modelled from the spec: the Credential Store Adapter ([db] of
    [@/database/client], backed by the relational store, is not part of the
    sources): "look up a user record by unique email or identifier, and
    create/update/delete user records".  A lookup resolves to the row whose
    column strictly equals the given value, or to nothing. *)
Record Store : Type := mkStore {
  users : list User;
  roles : list Role;
  tickets : list Ticket
}.

Definition matches (w : UserWhere) (u : User) : bool :=
  match w with
  | WhereId v => is_int v (id u)
  | WhereEmail v => is_string v (email u)
  end.

Definition findUser (w : UserWhere) (s : Store) : option User :=
  find (matches w) (users s).

Definition findRole (n : number) (s : Store) : option Role :=
  find (fun r => number_is n (role_id r)) (roles s).

(** [include: { role: true }]. *)
Definition includeRole (s : Store) (u : User) : option UserWithRole :=
  match findRole (Int (roleId u)) s with
  | Some r => Some (mkUserWithRole u r)
  | None => None
  end.

Fixpoint includeRoles (s : Store) (us : list User)
    : option (list UserWithRole) :=
  match us with
  | [] => Some []
  | u :: us' =>
      match includeRole s u, includeRoles s us' with
      | Some ur, Some urs => Some (ur :: urs)
      | _, _ => None
      end
  end.

(** Identifiers are handed out in increasing order. *)
Definition nextId (us : list User) : Z :=
  1 + fold_right (fun u m => Z.max (id u) m) 0 us.

Definition withDefault (new : option string) (old : string) : string :=
  match new with
  | Some v => v
  | None => old
  end.

Definition patchUser (u : User) (data : UserPatch) (r : Role) : User :=
  mkUser (id u)
         (withDefault (p_firstName data) (firstName u))
         (withDefault (p_lastName data) (lastName u))
         (p_email data)
         (withDefault (p_password data) (password u))
         (role_id r).

Definition setUsers (s : Store) (us : list User) : Store :=
  mkStore us (roles s) (tickets s).

(** Another row than [self] already holds [e]. *)
Definition emailTaken (e : string) (self : option Z) (s : Store) : bool :=
  existsb (fun u =>
             (email u =? e)%string &&
             match self with
             | Some i => negb (id u =? i)
             | None => true
             end) (users s).

(** Modelled from the spec: what each call on the database client does to
    the store and resolves to.  A call the store cannot carry out (no row to
    update or delete, no role to connect, a unique column taken) is
    rejected. *)
Definition perform {R : Type} (c : DbCall R) (s : Store)
    : (AppError + R) * Store :=
  match c in DbCall R return (AppError + R) * Store with
  | UserFindMany =>
      match includeRoles s (users s) with
      | Some urs => (inr urs, s)
      | None => (inl (StoreError "missing role"), s)
      end
  | UserFindUnique w => (inr (findUser w s), s)
  | UserFindUniqueWithRole w =>
      match findUser w s with
      | None => (inr None, s)
      | Some u =>
          match includeRole s u with
          | Some ur => (inr (Some ur), s)
          | None => (inl (StoreError "missing role"), s)
          end
      end
  | UserCreate data r =>
      match findRole r s with
      | None => (inl (StoreError "role to connect not found"), s)
      | Some ro =>
          if emailTaken (d_email data) None s
          then (inl (StoreError "unique constraint"), s)
          else
            let u := mkUser (nextId (users s)) (d_firstName data)
                       (d_lastName data) (d_email data) (d_password data)
                       (role_id ro) in
            (inr (mkUserWithRole u ro), setUsers s (users s ++ [u]))
      end
  | UserUpdate w data r =>
      match findUser w s, findRole r s with
      | Some u, Some ro =>
          if emailTaken (p_email data) (Some (id u)) s
          then (inl (StoreError "unique constraint"), s)
          else
            let u' := patchUser u data ro in
            (inr (mkUserWithRole u' ro),
             setUsers s (map (fun x => if id x =? id u then u' else x)
                           (users s)))
      | None, _ => (inl (StoreError "record to update not found"), s)
      | _, None => (inl (StoreError "role to connect not found"), s)
      end
  | UserDelete w =>
      match findUser w s with
      | Some u =>
          (inr u,
           setUsers s (filter (fun x => negb (id x =? id u)) (users s)))
      | None => (inl (StoreError "record to delete not found"), s)
      end
  | TicketFindMany n =>
      (inr (filter (fun t => number_is n (assigneeId t)
                             || number_is n (supervisorId t)) (tickets s)),
       s)
  end.

(** Running a handler body against a store: what it sends or throws, and the
    store afterwards.  A rejected database call throws at its [await]. *)
Fixpoint run {A : Type} (p : Prog A) (s : Store) : (AppError + A) * Store :=
  match p with
  | Ret a => (inr a, s)
  | Throw e => (inl e, s)
  | Call c k =>
      match perform c s with
      | (inr r, s') => run (k r) s'
      | (inl e, s') => (inl e, s')
      end
  end.

(** The unique constraints of the schema, which [findUnique] by [id] and by
    [email] relies on. *)
Definition uniqueKeys (s : Store) : Prop :=
  NoDup (map id (users s)) /\ NoDup (map email (users s)).

(** The handler threw an error of the given kind. *)
Definition failsWith {A : Type} (k : ErrorKind) (r : (AppError + A) * Store)
    : Prop :=
  match fst r with
  | inl e => kind e = k
  | inr _ => False
  end.

(** The object sent for the user row [u]: it has no [password] property,
    its [fullName] is [u]'s first name, one space and [u]'s last name, and
    its identifier, names and email are [u]'s. *)
Definition userObject (u : User) (v : JsValue) : Prop :=
  exists o : JsObject,
    v = JObj o
    /\ lookup "password" o = None
    /\ lookup "fullName" o = Some (JStr (firstName u ++ " " ++ lastName u))
    /\ lookup "id" o = Some (JNum (Int (id u)))
    /\ lookup "firstName" o = Some (JStr (firstName u))
    /\ lookup "lastName" o = Some (JStr (lastName u))
    /\ lookup "email" o = Some (JStr (email u)).

(** Every [throw] the program can reach throws an error of an allowed
    kind; what a database call may raise at its [await] is not the
    program's own throw. *)
Fixpoint throwsOnly {A : Type} (allowed : ErrorKind -> Prop) (p : Prog A)
    : Prop :=
  match p with
  | Ret _ => True
  | Throw e => allowed (kind e)
  | Call _ k => forall r, throwsOnly allowed (k r)
  end.

(** ** Which calls a handler makes *)

(** The calls that only read the store. *)
Definition isLookup {R : Type} (c : DbCall R) : bool :=
  match c with
  | UserFindMany | UserFindUnique _ | UserFindUniqueWithRole _
  | TicketFindMany _ => true
  | UserCreate _ _ | UserUpdate _ _ _ | UserDelete _ => false
  end.

(** Every call the program can reach is a lookup. *)
Fixpoint readOnly {A : Type} (p : Prog A) : Prop :=
  match p with
  | Ret _ | Throw _ => True
  | Call c k => isLookup c = true /\ forall r, readOnly (k r)
  end.

(** The program makes no call at all. *)
Definition settled {A : Type} (p : Prog A) : Prop :=
  match p with
  | Ret _ | Throw _ => True
  | Call _ _ => False
  end.

(** The program sends a response without a further call or throw. *)
Definition sends {A : Type} (p : Prog A) : Prop :=
  match p with
  | Ret _ => True
  | Throw _ | Call _ _ => False
  end.

(** Lookups may come first; a call that writes is the last thing the
    program does before it sends its response. *)
Fixpoint writesLast {A : Type} (p : Prog A) : Prop :=
  match p with
  | Ret _ | Throw _ => True
  | Call c k =>
      if isLookup c
      then forall r, writesLast (k r)
      else forall r, sends (k r)
  end.

(** Every role a user row refers to is in the store. *)
Definition rolesPresent (s : Store) : Prop :=
  forall u, In u (users s) -> exists r, findRole (Int (roleId u)) s = Some r.

(** ** The client's request helper (third part of src/client/src/App.tsx) *)

Module Client.

(** A promise as its caller finds it: resolved, rejected, or never
    settled. *)
Inductive Promise (A E : Type) : Type :=
| Resolved (value : A)
| RejectedWith (reason : E)
| Pending.

Arguments Resolved {A E} value.
Arguments RejectedWith {A E} reason.
Arguments Pending {A E}.

Record AxiosRequestConfig : Type := mkConfig {
  url : string;
  method : string;
  headers : JsObject;
  params : JsValue;
  data : JsValue
}.

(** What the helper reads of an axios response and of an axios error. *)
Record AxiosResponse : Type := mkResponse { response_data : JsValue }.

Record AxiosError : Type := mkError { response : option AxiosResponse }.

(** What the module reads from outside: [process.env.API_URL], which may be
    unset, and [axios]. *)
Class ClientEnv : Type := {
  API_URL : option string;
  axios : AxiosRequestConfig -> Promise AxiosResponse AxiosError
}.

(** [v.error].  Reading a property of [undefined] or [null] throws a
    TypeError ([None]); a primitive or an array has no [error] property. *)
Definition readError (v : JsValue) : option JsValue :=
  match v with
  | JUndefined | JNull => None
  | JObj o => Some (get o "error")
  | JBool _ | JNum _ | JStr _ | JArr _ => Some JUndefined
  end.

Section Api.
Context {E : ClientEnv}.

(** [process.env.API_URL || 'http://localhost:4000']. *)
Definition baseURL : string :=
  match API_URL with
  | Some u => if (u =? "")%string then "http://localhost:4000" else u
  | None => "http://localhost:4000"
  end.

Definition defaultHeaders : JsObject :=
  [("Content-Type", JStr "application/json")].

Definition defaultError : JsValue :=
  JObj [ ("code", JStr "INTERNAL_ERROR");
         ("message", JStr "Algo salió mal.");
         ("status", JNum (Int 503));
         ("data", JObj []) ].

(** The configuration [api] hands to [axios]. *)
Definition requestConfig (method url : string) (variables : JsValue)
    : AxiosRequestConfig :=
  mkConfig (baseURL ++ url) method defaultHeaders
    (if (method =? "get")%string then variables else JUndefined)
    (if negb (method =? "get")%string then variables else JUndefined).

(** The promise [api] returns.  It settles only through [resolve] and
    [reject]: when the rejection handler itself throws, neither is called
    and the promise stays pending. *)
Definition api (method url : string) (variables : JsValue)
    : Promise JsValue JsValue :=
  match axios (requestConfig method url variables) with
  | Resolved response => Resolved (response_data response)
  | RejectedWith error =>
      match response error with
      | Some r =>
          match readError (response_data r) with
          | Some e => RejectedWith e
          | None => Pending
          end
      | None => RejectedWith defaultError
      end
  | Pending => Pending
  end.

End Api.

Module apiMethods.
Section Methods.
Context {E : ClientEnv}.

Definition get (url : string) (variables : JsValue) :=
  api "get" url variables.

Definition post (url : string) (variables : JsValue) :=
  api "post" url variables.

Definition put (url : string) (variables : JsValue) :=
  api "put" url variables.

Definition delete (url : string) (variables : JsValue) :=
  api "delete" url variables.

End Methods.
End apiMethods.

End Client.

Module ClientExamples.

(** A server that lists users, is down for [/down], answers [/users/0] with
    an error envelope and [/null] with an error whose body is [null]; the
    environment sets [API_URL] to the empty string. *)
Definition server (c : Client.AxiosRequestConfig)
    : Client.Promise Client.AxiosResponse Client.AxiosError :=
  if (Client.url c =? "http://localhost:4000/users")%string
  then Client.Resolved (Client.mkResponse (JArr []))
  else if (Client.url c =? "http://localhost:4000/down")%string
  then Client.RejectedWith (Client.mkError None)
  else if (Client.url c =? "http://localhost:4000/users/0")%string
  then Client.RejectedWith
         (Client.mkError
            (Some (Client.mkResponse
                     (JObj [("error",
                             JObj [("code", JStr "ENTITY_NOT_FOUND");
                                   ("status", JNum (Int 404))])]))))
  else if (Client.url c =? "http://localhost:4000/null")%string
  then Client.RejectedWith
         (Client.mkError (Some (Client.mkResponse JNull)))
  else Client.Pending.

#[global] Instance env : Client.ClientEnv := {|
  Client.API_URL := Some "";
  Client.axios := server
|}.

End ClientExamples.

(** ** A concrete environment and store for the examples *)

Module Examples.

(** [Number] on the path parameters of the examples: a string of decimal
    digits converts to the integer it denotes and the empty string to
    zero; the other parameters used below hold a letter and convert to
    [NaN]. *)
Definition parseDigits (s : string) : number :=
  if (s =? "")%string then Int 0
  else match NilZero.uint_of_string s with
       | Some u => Int (Z.of_uint u)
       | None => NaN
       end.

Definition stripPrefix (p s : string) : option string :=
  if String.prefix p s
  then Some (substring (String.length p)
               (String.length s - String.length p)%nat s)
  else None.

Definition showId (v : JsValue) : string :=
  match v with
  | JNum (Int z) => NilZero.string_of_int (Z.to_int z)
  | _ => ""
  end.

Definition readId (s : string) : JsObject :=
  match NilZero.int_of_string s with
  | Some i => [("userId", JNum (Int (Z.of_int i)))]
  | None => []
  end.

(** Tokens in the clear: ["login." ++ email], ["access." ++ id] and
    ["refresh." ++ id]; ["login"] is a login token without claims. *)
Definition loginClaims (t : string) : AppError + option JsObject :=
  match stripPrefix "login." t with
  | Some e => inr (Some [("email", JStr e)])
  | None => if (t =? "login")%string then inr (Some []) else inr None
  end.

Definition refreshClaims (t : string) : AppError + JsObject :=
  match stripPrefix "refresh." t with
  | Some i => inr (readId i)
  | None => inl (InvalidTokenError "bad refresh token")
  end.

Definition str (v : JsValue) : option string :=
  match v with
  | JStr s => Some s
  | _ => None
  end.

Definition field {A : Type} (b : JsValue) (k : string)
    (f : JsValue -> option A) : option A :=
  match b with
  | JObj o => f (get o k)
  | _ => None
  end.

Definition num (v : JsValue) : option number :=
  match v with
  | JNum n => Some n
  | _ => None
  end.

Definition createSchema (b : JsValue) : option (number * UserData) :=
  match field b "roleId" num, field b "firstName" str,
        field b "lastName" str, field b "email" str,
        field b "password" str with
  | Some r, Some f, Some l, Some e, Some p => Some (r, mkUserData f l e p)
  | _, _, _, _, _ => None
  end.

Definition updateSchema (b : JsValue) : option (number * UserPatch) :=
  match field b "roleId" num, field b "email" str with
  | Some r, Some e =>
      Some (r, mkUserPatch (field b "firstName" str)
                 (field b "lastName" str) e (field b "password" str))
  | _, _ => None
  end.

#[global] Instance builtins : JsBuiltins := {| Number := parseDigits |}.

#[global] Instance codec : AuthToken := {|
  readToken := loginClaims;
  verifyRefreshToken := refreshClaims;
  generateAccessToken := fun claims =>
    "access." ++ showId (get claims "userId");
  generateRefreshToken := fun claims =>
    "refresh." ++ showId (get claims "userId")
|}.

#[global] Instance schemas : Schemas := {|
  LoginRequestSchema := fun b =>
    option_map mkLoginRequest (field b "token" str);
  RefreshRequestSchema := fun b =>
    option_map mkRefreshRequest (field b "refreshToken" str);
  UserCreateRequestSchema := createSchema;
  UserUpdateRequestSchema := updateSchema
|}.

Definition admin : Role := mkRole 1 "admin".
Definition ana : User := mkUser 7 "Ana" "Paz" "a@x.com" "s3cret" 1.
Definition bo : User := mkUser 8 "Bo" "Li" "b@x.com" "hunter2" 1.
Definition zed : User := mkUser 0 "Zed" "Roe" "z@x.com" "pw" 1.
Definition blank : User := mkUser 9 "No" "Mail" "" "pw" 1.

(** Ticket 1 is assigned to Bo and supervised by Ana. *)
Definition store : Store := mkStore [ana; bo] [admin] [mkTicket 1 8 7].
Definition storeZero : Store := mkStore [zed; ana] [admin] [].
Definition storeBlank : Store := mkStore [blank; ana] [admin] [].

Definition request (userId : string) (b : JsValue) (caller : User)
    : Request :=
  mkRequest userId b (mkUserWithRole caller admin).

Definition loginBody (t : string) : JsValue := JObj [("token", JStr t)].

Definition refreshBody (t : string) : JsValue :=
  JObj [("refreshToken", JStr t)].

Definition userBody (f l e p : string) (r : Z) : JsValue :=
  JObj [ ("firstName", JStr f); ("lastName", JStr l); ("email", JStr e);
         ("password", JStr p); ("roleId", JNum (Int r)) ].

End Examples.
Import Examples.

(** ** Basic facts about values, objects and lookups *)

Lemma number_is_true (n : number) (z : Z) :
  number_is n z = true <-> n = Int z.
Proof.
  destruct n as [|z'|]; simpl; split; intro E; try discriminate.
  - apply Z.eqb_eq in E. now subst.
  - injection E as ->. apply Z.eqb_refl.
Qed.

Lemma is_int_true (v : JsValue) (z : Z) :
  is_int v z = true <-> v = JNum (Int z).
Proof.
  destruct v; simpl; split; intro E; try discriminate.
  - apply number_is_true in E. now subst.
  - injection E as ->. now apply number_is_true.
Qed.

Lemma is_string_true (v : JsValue) (s : string) :
  is_string v s = true <-> v = JStr s.
Proof.
  destruct v; simpl; split; intro E; try discriminate.
  - apply String.eqb_eq in E. now subst.
  - injection E as ->. apply String.eqb_refl.
Qed.

Lemma truthy_string (e : string) : e <> "" -> truthy (JStr e) = true.
Proof.
  intro Hne. simpl.
  destruct (String.eqb_spec e ""); [contradiction|reflexivity].
Qed.

Lemma find_absent {A : Type} (f : A -> bool) (xs : list A) :
  (forall x, In x xs -> f x = false) -> find f xs = None.
Proof.
  induction xs as [|x xs IH]; simpl; intro Hall; [reflexivity|].
  rewrite (Hall x (or_introl eq_refl)). apply IH.
  intros y Hy. apply Hall. now right.
Qed.

Lemma find_present {A : Type} (f : A -> bool) (xs : list A) (x : A) :
  In x xs -> f x = true -> exists y, find f xs = Some y /\ f y = true.
Proof.
  induction xs as [|a xs IH]; simpl; [contradiction|].
  intros [->|Hin] Hx.
  - rewrite Hx. eauto.
  - destruct (f a) eqn:Ea; eauto.
Qed.

(** With a key column free of duplicates, the lookup of a row's own key
    resolves to that very row. *)
Lemma find_by_key {K : Type} (key : User -> K) (f : User -> bool)
    (us : list User) (u : User) :
  NoDup (map key us) ->
  (forall x, f x = true <-> key x = key u) ->
  In u us ->
  find f us = Some u.
Proof.
  intros Hnd Hf. induction us as [|a us IH]; simpl; [contradiction|].
  inversion Hnd as [|k ks Hnotin Hnd' Heq]; subst.
  intros [->|Hin].
  - destruct (f u) eqn:E; [reflexivity|].
    assert (f u = true) as E' by now apply Hf. congruence.
  - destruct (f a) eqn:E.
    + apply Hf in E. exfalso. apply Hnotin. rewrite E. now apply in_map.
    + now apply IH.
Qed.

Lemma findUser_by_email (s : Store) (u : User) :
  uniqueKeys s -> In u (users s) ->
  findUser (WhereEmail (JStr (email u))) s = Some u.
Proof.
  intros [_ Hnd] Hin. unfold findUser.
  apply (find_by_key email); [exact Hnd| |exact Hin].
  intro x. simpl. rewrite String.eqb_eq. split; congruence.
Qed.

Lemma findUser_by_id (s : Store) (u : User) :
  uniqueKeys s -> In u (users s) ->
  findUser (WhereId (JNum (Int (id u)))) s = Some u.
Proof.
  intros [Hnd _] Hin. unfold findUser.
  apply (find_by_key id); [exact Hnd| |exact Hin].
  intro x. simpl. rewrite Z.eqb_eq. split; congruence.
Qed.

Lemma findUser_id_exists (s : Store) (u : User) :
  In u (users s) ->
  exists u', findUser (WhereId (JNum (Int (id u)))) s = Some u'.
Proof.
  intro Hin. unfold findUser.
  destruct (find_present (matches (WhereId (JNum (Int (id u))))) _ u Hin)
    as [y [Hy _]]; [simpl; apply Z.eqb_refl|eauto].
Qed.

Lemma findUser_email_exists (s : Store) (u : User) :
  In u (users s) ->
  exists u', findUser (WhereEmail (JStr (email u))) s = Some u'
             /\ email u' = email u.
Proof.
  intro Hin. unfold findUser.
  destruct (find_present (matches (WhereEmail (JStr (email u)))) _ u Hin)
    as [y [Hy Hm]]; [simpl; apply String.eqb_refl|].
  exists y. split; [exact Hy|].
  simpl in Hm. apply String.eqb_eq in Hm. congruence.
Qed.

Lemma lookup_omit (k : string) (o : JsObject) (keys : list string) :
  In k keys -> lookup k (omit o keys) = None.
Proof.
  intro Hin. induction o as [|[k' v] o IH]; simpl; [reflexivity|].
  destruct (existsb (String.eqb k') keys) eqn:E; simpl; [exact IH|].
  destruct (String.eqb_spec k' k) as [->|_]; [|exact IH].
  assert (existsb (String.eqb k) keys = true) as E'.
  { apply existsb_exists. exists k. split; [exact Hin|apply String.eqb_refl]. }
  congruence.
Qed.

Lemma lookup_omit_other (k : string) (o : JsObject) (keys : list string) :
  ~ In k keys -> lookup k (omit o keys) = lookup k o.
Proof.
  intro Hnotin. induction o as [|[k' v] o IH]; simpl; [reflexivity|].
  destruct (existsb (String.eqb k') keys) eqn:E; simpl.
  - destruct (String.eqb_spec k' k) as [->|_]; [|exact IH].
    apply existsb_exists in E as [x [Hx Hk]].
    apply String.eqb_eq in Hk. subst x. contradiction.
  - now rewrite IH.
Qed.

Lemma lookup_set_prop (k : string) (v : JsValue) (o : JsObject) :
  lookup k (set_prop k v o) = Some v.
Proof.
  induction o as [|[k' v'] o IH]; simpl.
  - now rewrite String.eqb_refl.
  - destruct (String.eqb_spec k' k) as [->|Hne]; simpl.
    + now rewrite String.eqb_refl.
    + destruct (String.eqb_spec k' k); [contradiction|exact IH].
Qed.

Lemma lookup_set_prop_other (k k0 : string) (v : JsValue) (o : JsObject) :
  k0 <> k -> lookup k0 (set_prop k v o) = lookup k0 o.
Proof.
  intro Hne. induction o as [|[k' v'] o IH]; simpl.
  - destruct (String.eqb_spec k k0); [congruence|reflexivity].
  - destruct (String.eqb_spec k' k) as [->|Hk]; simpl.
    + destruct (String.eqb_spec k k0); [congruence|reflexivity].
    + now rewrite IH.
Qed.

(** Running a sequence runs its first part, then the rest on the store the
    first part left; an error of the first part ends the run. *)
Lemma run_bind {A B : Type} (m : Prog A) (f : A -> Prog B) (s : Store) :
  run (bind m f) s =
  match run m s with
  | (inr a, s') => run (f a) s'
  | (inl e, s') => (inl e, s')
  end.
Proof.
  revert s. induction m as [a|e|R c k IH]; intro s; simpl; try reflexivity.
  destruct (perform c s) as [[e|r] s']; [reflexivity|apply IH].
Qed.

Lemma run_validateUser_found (n : number) (s : Store) (u : User) :
  findUser (WhereId (JNum n)) s = Some u ->
  run (validateUser n) s = (inr tt, s).
Proof. intro E. unfold validateUser. simpl. now rewrite E. Qed.

Lemma run_validateUser_missing (n : number) (s : Store) :
  findUser (WhereId (JNum n)) s = None ->
  run (validateUser n) s =
  (inl (EntityNotFoundError "Usuario" (JObj [("id", JNum n)])), s).
Proof. intro E. unfold validateUser. simpl. now rewrite E. Qed.

(** ** Login and refresh *)

Section AuthenticationFacts.
Context {T : AuthToken} {S : Schemas}.

(** What [authenticate] does once the body is parsed and the login token is
    read. *)
Lemma authenticate_decoded (req : Request) (s : Store)
    (data : LoginRequest) (tokenData : option JsObject) :
  LoginRequestSchema (body req) = Some data ->
  readToken (token data) = inr tokenData ->
  run (authenticate req) s =
  if negb (truthy (get_opt tokenData "email"))
  then (inl (InvalidTokenError "Token inválido."), s)
  else match findUser (WhereEmail (get_opt tokenData "email")) s with
       | None => (inl (UnauthorizedError "El usuario no existe."), s)
       | Some user =>
           (inr (sessionResponse "Inicio de sesión exitoso." user), s)
       end.
Proof.
  intros Hbody Htoken. unfold authenticate, validateAndParse.
  rewrite Hbody. cbn [bind]. rewrite Htoken. cbn [attempt bind].
  destruct (negb (truthy (get_opt tokenData "email"))); [reflexivity|].
  cbn [await bind run perform].
  destruct (findUser _ s); reflexivity.
Qed.

(** What [refresh] does once the body is parsed and the refresh token is
    verified. *)
Lemma refresh_decoded (req : Request) (s : Store)
    (data : RefreshRequest) (payload : JsObject) :
  RefreshRequestSchema (body req) = Some data ->
  verifyRefreshToken (refreshToken data) = inr payload ->
  run (refresh req) s =
  if negb (truthy (get payload "userId"))
  then (inl (InvalidTokenError "Token de actualización inválido."), s)
  else match findUser (WhereId (get payload "userId")) s with
       | None => (inl (InvalidTokenError "Usuario no encontrado."), s)
       | Some user =>
           (inr (sessionResponse "Validación de sesión exitosa." user), s)
       end.
Proof.
  intros Hbody Htoken. unfold refresh, validateAndParse.
  rewrite Hbody. cbn [bind]. rewrite Htoken. cbn [attempt bind].
  destruct (negb (truthy (get payload "userId"))); [reflexivity|].
  cbn [await bind run perform].
  destruct (findUser _ s); reflexivity.
Qed.

(** C1, as amended: for every login token that decodes successfully and
    whose email claim is a non-empty string matching an existing user of
    the store, [authenticate] succeeds, leaves the store as it was, and
    sends an access token and a refresh token both generated from the
    claim [userId] = that user's identifier. *)
Theorem authenticate_issues_tokens (req : Request) (s : Store)
    (data : LoginRequest) (claims : JsObject) (u : User) :
  LoginRequestSchema (body req) = Some data ->
  readToken (token data) = inr (Some claims) ->
  lookup "email" claims = Some (JStr (email u)) ->
  email u <> "" ->
  uniqueKeys s ->
  In u (users s) ->
  run (authenticate req) s =
  (inr (JObj
          [ ("message", JStr "Inicio de sesión exitoso.");
            ("accessToken",
             JStr (generateAccessToken [("userId", JNum (Int (id u)))]));
            ("refreshToken",
             JStr (generateRefreshToken [("userId", JNum (Int (id u)))])) ]),
   s).
Proof.
  intros Hbody Htoken Hclaim Hne Huniq Hin.
  rewrite (authenticate_decoded req s data (Some claims) Hbody Htoken).
  unfold get_opt, get. rewrite Hclaim.
  rewrite (truthy_string _ Hne). cbn [negb].
  now rewrite (findUser_by_email s u Huniq Hin).
Qed.

(** C3: for every refresh token that decodes successfully and carries a
    user-identifier claim, if no user of the store has that identifier,
    [refresh] fails with InvalidToken, and so not with Unauthorized. *)
Theorem refresh_unknown_user (req : Request) (s : Store)
    (data : RefreshRequest) (payload : JsObject) (v : JsValue) :
  RefreshRequestSchema (body req) = Some data ->
  verifyRefreshToken (refreshToken data) = inr payload ->
  lookup "userId" payload = Some v ->
  (forall u, In u (users s) -> v <> JNum (Int (id u))) ->
  failsWith InvalidToken (run (refresh req) s)
  /\ ~ failsWith Unauthorized (run (refresh req) s)
  /\ snd (run (refresh req) s) = s.
Proof.
  intros Hbody Htoken Hclaim Hnone.
  rewrite (refresh_decoded req s data payload Hbody Htoken).
  unfold get. rewrite Hclaim.
  assert (findUser (WhereId v) s = None) as Hfind.
  { apply find_absent. intros u Hu. simpl.
    destruct (is_int v (id u)) eqn:E; [|reflexivity].
    apply is_int_true in E. now apply Hnone in Hu. }
  rewrite Hfind.
  destruct (negb (truthy v)); unfold failsWith; simpl;
    repeat split; discriminate.
Qed.

(** C8: for every login token that decodes successfully, if its email
    claim is a non-empty string that is the email of no user of the store,
    [authenticate] fails with Unauthorized; if the token carries no email
    claim, [authenticate] fails with InvalidToken. *)
Theorem authenticate_unknown_or_missing_email (req : Request) (s : Store)
    (data : LoginRequest) (claims : JsObject) :
  LoginRequestSchema (body req) = Some data ->
  readToken (token data) = inr (Some claims) ->
  (forall e, lookup "email" claims = Some (JStr e) -> e <> "" ->
             (forall u, In u (users s) -> email u <> e) ->
             failsWith Unauthorized (run (authenticate req) s))
  /\ (lookup "email" claims = None ->
      failsWith InvalidToken (run (authenticate req) s)).
Proof.
  intros Hbody Htoken.
  rewrite (authenticate_decoded req s data (Some claims) Hbody Htoken).
  unfold get_opt, get. split.
  - intros e Hclaim Hne Hnone. rewrite Hclaim.
    rewrite (truthy_string _ Hne). cbn [negb].
    assert (findUser (WhereEmail (JStr e)) s = None) as Hfind.
    { apply find_absent. intros u Hu. simpl.
      destruct (String.eqb_spec e (email u)) as [->|_]; [|reflexivity].
      now apply Hnone in Hu. }
    now rewrite Hfind.
  - intro Hclaim. now rewrite Hclaim.
Qed.

(** C9: for every refresh token whose decoded user-identifier claim is the
    number 0, or any other falsy value, [refresh] throws InvalidToken at
    the truthiness test on the claim, before any lookup: it fails with
    InvalidToken on every store, also on one that holds a user with
    identifier 0. *)
Theorem refresh_falsy_userId (req : Request) (data : RefreshRequest)
    (payload : JsObject) :
  RefreshRequestSchema (body req) = Some data ->
  verifyRefreshToken (refreshToken data) = inr payload ->
  truthy (get payload "userId") = false ->
  refresh req = Throw (InvalidTokenError "Token de actualización inválido.")
  /\ forall s, failsWith InvalidToken (run (refresh req) s)
               /\ snd (run (refresh req) s) = s.
Proof.
  intros Hbody Htoken Hfalsy.
  assert (refresh req =
          Throw (InvalidTokenError "Token de actualización inválido."))
    as Hprog.
  { unfold refresh, validateAndParse. rewrite Hbody. cbn [bind].
    rewrite Htoken. cbn [attempt bind]. now rewrite Hfalsy. }
  split; [exact Hprog|]. intro s. rewrite Hprog. now split.
Qed.

End AuthenticationFacts.

Lemma authenticate_issues_tokens_witness :
  run (authenticate (request "" (loginBody "login.a@x.com") ana)) store =
  (inr (JObj [ ("message", JStr "Inicio de sesión exitoso.");
               ("accessToken", JStr "access.7");
               ("refreshToken", JStr "refresh.7") ]), store).
Proof.
  refine (authenticate_issues_tokens
            (request "" (loginBody "login.a@x.com") ana) store
            (mkLoginRequest "login.a@x.com") [("email", JStr "a@x.com")] ana
            eq_refl eq_refl eq_refl _ _ _).
  - discriminate.
  - split; simpl; repeat constructor; simpl; intuition discriminate.
  - simpl. now left.
Defined.

(** C1, as stated, fails: the user [blank] of [storeBlank] has the empty
    string as email, the login token ["login."] decodes to that email claim,
    and [authenticate] throws InvalidToken at its truthiness test. *)
Lemma authenticate_empty_email_rejected :
  ~ (forall (T : AuthToken) (S : Schemas) (req : Request) (s : Store)
            (data : LoginRequest) (claims : JsObject) (u : User),
        LoginRequestSchema (body req) = Some data ->
        readToken (token data) = inr (Some claims) ->
        lookup "email" claims = Some (JStr (email u)) ->
        uniqueKeys s ->
        In u (users s) ->
        exists response, run (authenticate req) s = (inr response, s)).
Proof.
  intro Hclaim.
  destruct (Hclaim codec schemas (request "" (loginBody "login.") ana)
              storeBlank (mkLoginRequest "login.") [("email", JStr "")] blank)
    as [response Hrun].
  - reflexivity.
  - reflexivity.
  - reflexivity.
  - split; simpl; repeat constructor; simpl; intuition discriminate.
  - simpl. now left.
  - discriminate Hrun.
Qed.

Lemma refresh_unknown_user_witness :
  failsWith InvalidToken
    (run (refresh (request "" (refreshBody "refresh.5") ana)) store)
  /\ ~ failsWith Unauthorized
         (run (refresh (request "" (refreshBody "refresh.5") ana)) store)
  /\ snd (run (refresh (request "" (refreshBody "refresh.5") ana)) store)
     = store.
Proof.
  apply (refresh_unknown_user (request "" (refreshBody "refresh.5") ana)
           store (mkRefreshRequest "refresh.5")
           [("userId", JNum (Int 5))] (JNum (Int 5))).
  - reflexivity.
  - reflexivity.
  - reflexivity.
  - simpl. intros u [<-|[<-|[]]]; discriminate.
Defined.

Lemma authenticate_unknown_or_missing_email_witness :
  failsWith Unauthorized
    (run (authenticate (request "" (loginBody "login.q@x.com") ana)) store)
  /\ failsWith InvalidToken
       (run (authenticate (request "" (loginBody "login") ana)) store).
Proof.
  split.
  - refine (proj1 (authenticate_unknown_or_missing_email
                     (request "" (loginBody "login.q@x.com") ana) store
                     (mkLoginRequest "login.q@x.com")
                     [("email", JStr "q@x.com")] _ _)
              "q@x.com" _ _ _); try reflexivity.
    + discriminate.
    + simpl. intros u [<-|[<-|[]]]; discriminate.
  - refine (proj2 (authenticate_unknown_or_missing_email
                     (request "" (loginBody "login") ana) store
                     (mkLoginRequest "login") [] _ _) _); reflexivity.
Defined.

Lemma refresh_falsy_userId_witness :
  In zed (users storeZero) /\ id zed = 0
  /\ failsWith InvalidToken
       (run (refresh (request "" (refreshBody "refresh.0") ana)) storeZero).
Proof.
  split; [simpl; now left|]. split; [reflexivity|].
  refine (proj1 (proj2 (refresh_falsy_userId
                          (request "" (refreshBody "refresh.0") ana)
                          (mkRefreshRequest "refresh.0")
                          [("userId", JNum (Int 0))] _ _ _) storeZero));
    reflexivity.
Defined.

(** ** User management *)

Lemma run_bind_sent {A B : Type} (m : Prog A) (f : A -> Prog B)
    (s s' : Store) (b : B) :
  run (bind m f) s = (inr b, s') ->
  exists a s1, run m s = (inr a, s1) /\ run (f a) s1 = (inr b, s').
Proof.
  rewrite run_bind. destruct (run m s) as [[e|a] s1]; [discriminate|eauto].
Qed.

Lemma run_validateExistingEmail (e : string) (userId : option number)
    (s : Store) :
  run (validateExistingEmail e userId) s =
  match findUser (WhereEmail (JStr e)) s with
  | None => (inr tt, s)
  | Some user =>
      if isSameUser userId user
      then (inr tt, s)
      else (inl (ValidationError "El correo electrónico ya está en uso."
                   (JObj [("email", JStr e)])), s)
  end.
Proof.
  unfold validateExistingEmail. cbn [await bind run perform].
  destruct (findUser _ s) as [user|]; [|reflexivity].
  destruct (isSameUser userId user); reflexivity.
Qed.

(** A rejected or completed database call never raises a ValidationError. *)
Lemma perform_not_validation {R : Type} (c : DbCall R) (s : Store) :
  match fst (perform c s) with
  | inl e => kind e = Internal
  | inr _ => True
  end.
Proof.
  destruct c; cbn [perform];
    repeat match goal with
           | |- context [match findUser ?w ?s' with _ => _ end] =>
               destruct (findUser w s')
           | |- context [match findRole ?n ?s' with _ => _ end] =>
               destruct (findRole n s')
           | |- context [match includeRole ?s' ?u with _ => _ end] =>
               destruct (includeRole s' u)
           | |- context [match includeRoles ?s' ?us with _ => _ end] =>
               destruct (includeRoles s' us)
           | |- context [if emailTaken ?e ?i ?s' then _ else _] =>
               destruct (emailTaken e i s')
           end; simpl; auto.
Qed.

Section UsersFacts.
Context {B : JsBuiltins} {S : Schemas}.

(** C2: for every delete request that targets a user of the store who is
    the assignee or the supervisor of at least one ticket, [deleteUser]
    fails with ValidationError, the store is left as it was, and the user
    record is still there. *)
Theorem deleteUser_with_tickets (req : Request) (s : Store) (u : User)
    (t : Ticket) :
  Number (params_userId req) = Int (id u) ->
  In u (users s) ->
  In t (tickets s) ->
  assigneeId t = id u \/ supervisorId t = id u ->
  failsWith Validation (run (deleteUser req) s)
  /\ snd (run (deleteUser req) s) = s
  /\ In u (users (snd (run (deleteUser req) s))).
Proof.
  intros Hnum Hu Ht Href.
  assert (failsWith Validation (run (deleteUser req) s)
          /\ snd (run (deleteUser req) s) = s) as [Hfail Hsame].
  { unfold deleteUser. rewrite Hnum.
    destruct (number_is _ _); [now split|].
    rewrite run_bind.
    destruct (findUser_id_exists s u Hu) as [u' Hfind].
    rewrite (run_validateUser_found _ s u' Hfind).
    cbn [await bind run perform].
    destruct (filter _ (tickets s)) as [|t' ts] eqn:Efilter.
    - exfalso.
      assert (In t []) as Hin; [|destruct Hin].
      rewrite <- Efilter. apply filter_In. split; [exact Ht|].
      cbn [number_is]. apply orb_true_iff.
      destruct Href as [->| ->]; [left|right]; apply Z.eqb_refl.
    - now split. }
  repeat split; [exact Hfail|exact Hsame|now rewrite Hsame].
Qed.

(** C4: for every create request whose email is already the email of a
    user of the store, [createUser] fails with ValidationError and the
    store is left unchanged: no record is created. *)
Theorem createUser_duplicate_email (req : Request) (s : Store)
    (r : number) (data : UserData) (u : User) :
  UserCreateRequestSchema (body req) = Some (r, data) ->
  In u (users s) ->
  email u = d_email data ->
  failsWith Validation (run (createUser req) s)
  /\ snd (run (createUser req) s) = s.
Proof.
  intros Hbody Hu Hemail.
  unfold createUser, validateAndParse. rewrite Hbody. cbn [bind].
  rewrite run_bind, run_validateExistingEmail.
  destruct (findUser_email_exists s u Hu) as [u' [Hfind _]].
  rewrite <- Hemail, Hfind. now split.
Qed.

(** The uniqueness check of [updateUser] on every identifier but 0: for
    every existing user A, [updateUser] of A with the email of a different
    existing user B fails with ValidationError and leaves the store
    unchanged; [updateUser] of A that supplies A's own current email passes
    the uniqueness check, and so does not fail with ValidationError, when
    A's identifier is not 0. *)
Theorem updateUser_email_uniqueness (req : Request) (s : Store)
    (r : number) (data : UserPatch) (a : User) :
  Number (params_userId req) = Int (id a) ->
  UserUpdateRequestSchema (body req) = Some (r, data) ->
  uniqueKeys s ->
  In a (users s) ->
  (forall b, In b (users s) -> id b <> id a -> p_email data = email b ->
             failsWith Validation (run (updateUser req) s)
             /\ snd (run (updateUser req) s) = s)
  /\ (p_email data = email a -> id a <> 0 ->
      run (validateExistingEmail (p_email data)
             (Some (Number (params_userId req)))) s = (inr tt, s)
      /\ ~ failsWith Validation (run (updateUser req) s)).
Proof.
  intros Hnum Hbody Huniq Ha.
  assert (forall e,
            p_email data = e ->
            run (updateUser req) s =
            match run (validateExistingEmail e (Some (Int (id a)))) s with
            | (inr _, s') =>
                run (user <- await (UserUpdate (WhereId (JNum (Int (id a))))
                                      data r) ;;
                     Ret (mapToUserResponse user)) s'
            | (inl e', s') => (inl e', s')
            end) as Hrun.
  { intros e <-. unfold updateUser, validateAndParse.
    rewrite Hnum, Hbody. cbn [bind].
    rewrite run_bind.
    rewrite (run_validateUser_found _ s a (findUser_by_id s a Huniq Ha)).
    now rewrite run_bind. }
  split.
  - intros b Hb Hdiff Hemail.
    rewrite (Hrun _ Hemail), run_validateExistingEmail.
    rewrite (findUser_by_email s b Huniq Hb).
    assert (isSameUser (Some (Int (id a))) b = false) as ->.
    { cbn [isSameUser number_is].
      destruct (Z.eqb_spec (id a) (id b)); [congruence|apply andb_false_r]. }
    now split.
  - intros Hemail Hnz.
    assert (run (validateExistingEmail (email a) (Some (Int (id a)))) s
            = (inr tt, s)) as Hcheck.
    { rewrite run_validateExistingEmail, (findUser_by_email s a Huniq Ha).
      cbn [isSameUser number_is number_truthy].
      rewrite Z.eqb_refl.
      destruct (Z.eqb_spec (id a) 0); [contradiction|reflexivity]. }
    rewrite Hnum, Hemail. split; [exact Hcheck|].
    rewrite (Hrun _ Hemail), Hcheck.
    cbn [await bind run].
    pose proof (perform_not_validation
                  (UserUpdate (WhereId (JNum (Int (id a)))) data r) s) as Hp.
    destruct (perform _ s) as [[e|ur] s']; unfold failsWith; simpl in *.
    + rewrite Hp. discriminate.
    + tauto.
Qed.

(** C6: for every delete request whose target identifier is the caller's
    own, [deleteUser] throws ValidationError before any call on the store
    (its body is that throw), so on every store it fails with
    ValidationError, leaves the store as it was, and the caller's record
    is still there afterwards. *)
Theorem deleteUser_self (req : Request) :
  Number (params_userId req) = Int (id (user_row (currentUser req))) ->
  deleteUser req =
  Throw (ValidationError "La cuenta actual no puede ser eliminada."
           JUndefined)
  /\ forall s,
       failsWith Validation (run (deleteUser req) s)
       /\ snd (run (deleteUser req) s) = s
       /\ (In (user_row (currentUser req)) (users s) ->
           In (user_row (currentUser req))
              (users (snd (run (deleteUser req) s)))).
Proof.
  intro Hnum.
  assert (deleteUser req =
          Throw (ValidationError "La cuenta actual no puede ser eliminada."
                   JUndefined)) as Hprog.
  { unfold deleteUser. rewrite Hnum. cbn [number_is].
    now rewrite Z.eqb_refl. }
  split; [exact Hprog|]. intro s. rewrite Hprog. now repeat split.
Qed.

(** C10: for every getById request whose path parameter converts to NaN,
    the lookup by that identifier finds no user and [getUserById] fails
    with EntityNotFoundError, whatever the store holds: it sends no user
    and throws nothing else. *)
Theorem getUserById_NaN (req : Request) (s : Store) :
  Number (params_userId req) = NaN ->
  findUser (WhereId (JNum (Number (params_userId req)))) s = None
  /\ run (getUserById req) s =
     (inl (EntityNotFoundError "Usuario" (JObj [("id", JNum NaN)])), s)
  /\ failsWith EntityNotFound (run (getUserById req) s).
Proof.
  intro Hnum.
  assert (findUser (WhereId (JNum NaN)) s = None) as Hfind
    by (apply find_absent; reflexivity).
  assert (run (getUserById req) s =
          (inl (EntityNotFoundError "Usuario" (JObj [("id", JNum NaN)])), s))
    as Hrun.
  { unfold getUserById. rewrite Hnum, run_bind.
    now rewrite (run_validateUser_missing NaN s Hfind). }
  rewrite Hnum, Hrun. now repeat split.
Qed.

End UsersFacts.

Lemma store_uniqueKeys : uniqueKeys store.
Proof.
  split; simpl; repeat constructor; simpl; intuition discriminate.
Defined.

Lemma storeZero_uniqueKeys : uniqueKeys storeZero.
Proof.
  split; simpl; repeat constructor; simpl; intuition discriminate.
Defined.

Lemma deleteUser_with_tickets_witness :
  failsWith Validation (run (deleteUser (request "8" JNull ana)) store)
  /\ snd (run (deleteUser (request "8" JNull ana)) store) = store
  /\ In bo (users (snd (run (deleteUser (request "8" JNull ana)) store))).
Proof.
  refine (deleteUser_with_tickets (request "8" JNull ana) store bo
            (mkTicket 1 8 7) _ _ _ _).
  - reflexivity.
  - simpl. right. now left.
  - simpl. now left.
  - left. reflexivity.
Defined.

Lemma createUser_duplicate_email_witness :
  failsWith Validation
    (run (createUser (request "" (userBody "Al" "Po" "a@x.com" "pw" 1) ana))
       store)
  /\ snd (run (createUser
                 (request "" (userBody "Al" "Po" "a@x.com" "pw" 1) ana))
            store) = store.
Proof.
  refine (createUser_duplicate_email
            (request "" (userBody "Al" "Po" "a@x.com" "pw" 1) ana) store
            (Int 1) (mkUserData "Al" "Po" "a@x.com" "pw") ana _ _ _).
  - reflexivity.
  - simpl. now left.
  - reflexivity.
Defined.

Lemma updateUser_email_uniqueness_witness :
  failsWith Validation
    (run (updateUser (request "7" (userBody "Ana" "Paz" "b@x.com" "pw" 1) ana))
       store)
  /\ ~ failsWith Validation
         (run (updateUser
                 (request "7" (userBody "Ana" "Paz" "a@x.com" "pw" 1) ana))
            store).
Proof.
  split.
  - refine (proj1 (proj1 (updateUser_email_uniqueness
                            (request "7" (userBody "Ana" "Paz" "b@x.com" "pw" 1)
                               ana)
                            store (Int 1)
                            (mkUserPatch (Some "Ana") (Some "Paz") "b@x.com"
                               (Some "pw"))
                            ana _ _ store_uniqueKeys _) bo _ _ _)).
    + reflexivity.
    + reflexivity.
    + simpl. now left.
    + simpl. right. now left.
    + discriminate.
    + reflexivity.
  - refine (proj2 (proj2 (updateUser_email_uniqueness
                            (request "7" (userBody "Ana" "Paz" "a@x.com" "pw" 1)
                               ana)
                            store (Int 1)
                            (mkUserPatch (Some "Ana") (Some "Paz") "a@x.com"
                               (Some "pw"))
                            ana _ _ store_uniqueKeys _) _ _)).
    + reflexivity.
    + reflexivity.
    + simpl. now left.
    + reflexivity.
    + discriminate.
Defined.

(** The own-email exemption does not hold for every user: the user [zed]
    of [storeZero] has identifier 0, and an update of [zed] that supplies
    [zed]'s own email is rejected with ValidationError. *)
Lemma updateUser_own_email_id_zero_rejected :
  ~ (forall (B : JsBuiltins) (S : Schemas) (req : Request) (s : Store)
            (r : number) (data : UserPatch) (a : User),
        Number (params_userId req) = Int (id a) ->
        UserUpdateRequestSchema (body req) = Some (r, data) ->
        uniqueKeys s ->
        In a (users s) ->
        p_email data = email a ->
        ~ failsWith Validation (run (updateUser req) s)).
Proof.
  intro Hclaim.
  apply (Hclaim builtins schemas
           (request "0" (userBody "Zed" "Roe" "z@x.com" "pw" 1) ana)
           storeZero (Int 1)
           (mkUserPatch (Some "Zed") (Some "Roe") "z@x.com" (Some "pw"))
           zed).
  - reflexivity.
  - reflexivity.
  - exact storeZero_uniqueKeys.
  - simpl. now left.
  - reflexivity.
  - reflexivity.
Qed.

(** C5, where the code misses it: the user [zed] of [storeZero] exists and
    has identifier 0.  An [updateUser] of [zed] that supplies [zed]'s own
    current email should pass the uniqueness check; instead
    [validateExistingEmail] throws ValidationError for an email in use,
    because [userId && user.id === userId] is falsy when [userId] is 0, and
    [updateUser] fails with that error without updating anything. *)
Theorem updateUser_own_email_id_zero :
  In zed (users storeZero)
  /\ Number (params_userId
               (request "0" (userBody "Zed" "Roe" "z@x.com" "pw" 1) ana))
     = Int (id zed)
  /\ UserUpdateRequestSchema
       (body (request "0" (userBody "Zed" "Roe" "z@x.com" "pw" 1) ana))
     = Some (Int 1,
             mkUserPatch (Some "Zed") (Some "Roe") (email zed) (Some "pw"))
  /\ run (validateExistingEmail (email zed) (Some (Int (id zed)))) storeZero
     = (inl (ValidationError "El correo electrónico ya está en uso."
               (JObj [("email", JStr "z@x.com")])), storeZero)
  /\ run (updateUser
            (request "0" (userBody "Zed" "Roe" "z@x.com" "pw" 1) ana))
       storeZero
     = (inl (ValidationError "El correo electrónico ya está en uso."
               (JObj [("email", JStr "z@x.com")])), storeZero).
Proof.
  split; [simpl; now left|].
  split; [reflexivity|]. split; [reflexivity|]. split; reflexivity.
Qed.

Lemma deleteUser_self_witness :
  deleteUser (request "7" JNull ana) =
  Throw (ValidationError "La cuenta actual no puede ser eliminada." JUndefined)
  /\ failsWith Validation (run (deleteUser (request "7" JNull ana)) store)
  /\ snd (run (deleteUser (request "7" JNull ana)) store) = store.
Proof.
  assert (W := deleteUser_self (request "7" JNull ana) eq_refl).
  destruct W as [Hprog Hrun]. split; [exact Hprog|].
  destruct (Hrun store) as [Hfail [Hsame _]]. now split.
Defined.

Lemma getUserById_NaN_witness :
  run (getUserById (request "abc" JNull ana)) store =
  (inl (EntityNotFoundError "Usuario" (JObj [("id", JNum NaN)])), store).
Proof.
  refine (proj1 (proj2 (getUserById_NaN (request "abc" JNull ana) store _))).
  reflexivity.
Defined.

(** ** Which handlers read and which write *)

Lemma perform_lookup {R : Type} (c : DbCall R) (s : Store) :
  isLookup c = true -> snd (perform c s) = s.
Proof.
  destruct c; cbn [isLookup perform]; intro E; try discriminate;
    repeat match goal with
           | |- context [match findUser ?w ?s' with _ => _ end] =>
               destruct (findUser w s')
           | |- context [match includeRole ?s' ?u with _ => _ end] =>
               destruct (includeRole s' u)
           | |- context [match includeRoles ?s' ?us with _ => _ end] =>
               destruct (includeRoles s' us)
           end; reflexivity.
Qed.

(** A call the store rejects leaves the store as it was. *)
Lemma perform_rejected {R : Type} (c : DbCall R) (s : Store) (e : AppError) :
  fst (perform c s) = inl e -> snd (perform c s) = s.
Proof.
  destruct c; cbn [perform];
    repeat match goal with
           | |- context [match findUser ?w ?s' with _ => _ end] =>
               destruct (findUser w s')
           | |- context [match findRole ?n ?s' with _ => _ end] =>
               destruct (findRole n s')
           | |- context [match includeRole ?s' ?u with _ => _ end] =>
               destruct (includeRole s' u)
           | |- context [match includeRoles ?s' ?us with _ => _ end] =>
               destruct (includeRoles s' us)
           | |- context [if emailTaken ?e' ?i ?s' then _ else _] =>
               destruct (emailTaken e' i s')
           end; simpl; intro E; try discriminate; reflexivity.
Qed.

Lemma readOnly_bind {A B : Type} (m : Prog A) (f : A -> Prog B) :
  readOnly m -> (forall a, readOnly (f a)) -> readOnly (bind m f).
Proof.
  intros Hm Hf. induction m as [a|e|R c k IH]; simpl in *; auto.
  destruct Hm as [Hc Hk]. split; [exact Hc|]. intro r. apply IH, Hk.
Qed.

Lemma readOnly_run {A : Type} (p : Prog A) (s : Store) :
  readOnly p -> snd (run p s) = s.
Proof.
  revert s. induction p as [a|e|R c k IH]; intros s Hp; simpl in *; auto.
  destruct Hp as [Hc Hk].
  pose proof (perform_lookup c s Hc) as Hs.
  destruct (perform c s) as [[e|r] s']; simpl in Hs; subst s'.
  - reflexivity.
  - apply IH, Hk.
Qed.

Lemma readOnly_writesLast {A : Type} (p : Prog A) :
  readOnly p -> writesLast p.
Proof.
  induction p as [a|e|R c k IH]; simpl; auto.
  intros [Hc Hk]. rewrite Hc. intro r. apply IH, Hk.
Qed.

Lemma writesLast_bind {A B : Type} (m : Prog A) (f : A -> Prog B) :
  readOnly m -> (forall a, writesLast (f a)) -> writesLast (bind m f).
Proof.
  intros Hm Hf. induction m as [a|e|R c k IH]; simpl in *; auto.
  destruct Hm as [Hc Hk]. rewrite Hc. intro r. apply IH, Hk.
Qed.

(** A program that writes last either sends its response or leaves the
    store as it found it. *)
Lemma writesLast_run {A : Type} (p : Prog A) (s : Store) (e : AppError) :
  writesLast p -> fst (run p s) = inl e -> snd (run p s) = s.
Proof.
  revert s. induction p as [a|e'|R c k IH]; intros s Hp Hfail; simpl in *;
    auto.
  destruct (isLookup c) eqn:Hc.
  - pose proof (perform_lookup c s Hc) as Hs.
    destruct (perform c s) as [[e'|r] s']; simpl in Hs; subst s'.
    + reflexivity.
    + now apply IH.
  - pose proof (perform_rejected c s) as Hs.
    destruct (perform c s) as [[e'|r] s']; simpl in *.
    + now apply (Hs e').
    + specialize (Hp r). destruct (k r); simpl in *;
        [discriminate|contradiction|contradiction].
Qed.

Lemma readOnly_validateAndParse {A : Type} (schema : JsValue -> option A)
    (input : JsValue) :
  readOnly (validateAndParse schema input).
Proof. unfold validateAndParse. now destruct (schema input). Qed.

Lemma readOnly_attempt {A : Type} (r : AppError + A) : readOnly (attempt r).
Proof. now destruct r. Qed.

Lemma readOnly_validateUser (n : number) : readOnly (validateUser n).
Proof.
  unfold validateUser. simpl. split; [reflexivity|]. now intros [u|].
Qed.

Lemma readOnly_validateExistingEmail (e : string) (userId : option number) :
  readOnly (validateExistingEmail e userId).
Proof.
  unfold validateExistingEmail. simpl. split; [reflexivity|].
  intros [u|]; simpl; [|exact I]. now destruct (isSameUser userId u).
Qed.

Section Effects.
Context {B : JsBuiltins} {T : AuthToken} {S : Schemas}.

Lemma readOnly_authenticate (req : Request) : readOnly (authenticate req).
Proof.
  unfold authenticate.
  apply readOnly_bind; [apply readOnly_validateAndParse|]. intro data.
  apply readOnly_bind; [apply readOnly_attempt|]. intro tokenData.
  destruct (negb _); [exact I|].
  simpl. split; [reflexivity|]. now intros [u|].
Qed.

Lemma readOnly_refresh (req : Request) : readOnly (refresh req).
Proof.
  unfold refresh.
  apply readOnly_bind; [apply readOnly_validateAndParse|]. intro data.
  apply readOnly_bind; [apply readOnly_attempt|]. intro payload.
  destruct (negb _); [exact I|].
  simpl. split; [reflexivity|]. now intros [u|].
Qed.

Lemma readOnly_getUsers (req : Request) : readOnly (getUsers req).
Proof. unfold getUsers. simpl. now split. Qed.

Lemma readOnly_getUserById (req : Request) : readOnly (getUserById req).
Proof.
  unfold getUserById.
  apply readOnly_bind; [apply readOnly_validateUser|]. intros _.
  simpl. split; [reflexivity|]. now intros [u|].
Qed.

(** X1: [authenticate], [refresh], [getUsers], [getUserById] and
    [getCurrentUser] reach no call other than lookups, so on every request
    and every store they leave the store exactly as it was, whether they
    send a response or throw. *)
Theorem lookup_handlers_leave_store (req : Request) (s : Store) :
  (readOnly (authenticate req) /\ readOnly (refresh req)
   /\ readOnly (getUsers req) /\ readOnly (getUserById req)
   /\ readOnly (getCurrentUser req))
  /\ snd (run (authenticate req) s) = s
  /\ snd (run (refresh req) s) = s
  /\ snd (run (getUsers req) s) = s
  /\ snd (run (getUserById req) s) = s
  /\ snd (run (getCurrentUser req) s) = s.
Proof.
  pose proof (readOnly_authenticate req) as H1.
  pose proof (readOnly_refresh req) as H2.
  pose proof (readOnly_getUsers req) as H3.
  pose proof (readOnly_getUserById req) as H4.
  assert (readOnly (getCurrentUser req)) as H5 by exact I.
  split; [tauto|].
  repeat split; now apply readOnly_run.
Qed.

Lemma writesLast_createUser (req : Request) : writesLast (createUser req).
Proof.
  unfold createUser.
  apply writesLast_bind; [apply readOnly_validateAndParse|].
  intros [r data].
  apply writesLast_bind; [apply readOnly_validateExistingEmail|]. intros _.
  simpl. intros _. exact I.
Qed.

Lemma writesLast_updateUser (req : Request) : writesLast (updateUser req).
Proof.
  unfold updateUser.
  apply writesLast_bind; [apply readOnly_validateAndParse|].
  intros [r data].
  apply writesLast_bind; [apply readOnly_validateUser|]. intros _.
  apply writesLast_bind; [apply readOnly_validateExistingEmail|]. intros _.
  simpl. intros _. exact I.
Qed.

Lemma writesLast_deleteUser (req : Request) : writesLast (deleteUser req).
Proof.
  unfold deleteUser. destruct (number_is _ _); [exact I|].
  apply writesLast_bind; [apply readOnly_validateUser|]. intros _.
  simpl. intro tickets. destruct (negb (isEmpty tickets)); [exact I|].
  simpl. intros _. exact I.
Qed.

(** X2: [createUser], [updateUser] and [deleteUser] make their one writing
    call last, after every check: whenever one of them throws, whatever the
    error, the store is left exactly as it was. *)
Theorem failed_write_leaves_store (req : Request) (s : Store) :
  (forall e, fst (run (createUser req) s) = inl e ->
             snd (run (createUser req) s) = s)
  /\ (forall e, fst (run (updateUser req) s) = inl e ->
                snd (run (updateUser req) s) = s)
  /\ (forall e, fst (run (deleteUser req) s) = inl e ->
                snd (run (deleteUser req) s) = s).
Proof.
  repeat split; intros e Hfail.
  - exact (writesLast_run _ s e (writesLast_createUser req) Hfail).
  - exact (writesLast_run _ s e (writesLast_updateUser req) Hfail).
  - exact (writesLast_run _ s e (writesLast_deleteUser req) Hfail).
Qed.

End Effects.

Lemma failed_write_leaves_store_witness :
  snd (run (deleteUser (request "8" JNull ana)) store) = store
  /\ snd (run (createUser
                 (request "" (userBody "Al" "Po" "a@x.com" "pw" 1) ana))
            store) = store
  /\ snd (run (updateUser
                 (request "9" (userBody "Al" "Po" "a@x.com" "pw" 1) ana))
            store) = store.
Proof.
  split; [|split].
  - refine (proj2 (proj2 (failed_write_leaves_store
                            (request "8" JNull ana) store))
              (ValidationError "El usuario tiene tickets asociados."
                 JUndefined) _).
    reflexivity.
  - refine (proj1 (failed_write_leaves_store
                     (request "" (userBody "Al" "Po" "a@x.com" "pw" 1) ana)
                     store)
              (ValidationError "El correo electrónico ya está en uso."
                 (JObj [("email", JStr "a@x.com")])) _).
    reflexivity.
  - refine (proj1 (proj2 (failed_write_leaves_store
                            (request "9" (userBody "Al" "Po" "a@x.com" "pw" 1)
                               ana) store))
              (EntityNotFoundError "Usuario" (JObj [("id", JNum (Int 9))])) _).
    reflexivity.
Defined.

(** ** Login and refresh, further *)

Section SessionFacts.
Context {T : AuthToken} {S : Schemas}.

(** X3: when the login token yields no usable email claim - [readToken]
    resolves to nothing, the claim is missing, or it is any falsy value such
    as the empty string, 0, [null] or [false] - the body of [authenticate]
    is the throw of InvalidToken: no lookup is made. *)
Theorem authenticate_without_email (req : Request) (data : LoginRequest)
    (tokenData : option JsObject) :
  LoginRequestSchema (body req) = Some data ->
  readToken (token data) = inr tokenData ->
  truthy (get_opt tokenData "email") = false ->
  authenticate req = Throw (InvalidTokenError "Token inválido.").
Proof.
  intros Hbody Htoken Hfalsy.
  unfold authenticate, validateAndParse. rewrite Hbody. cbn [bind].
  rewrite Htoken. cbn [attempt bind]. now rewrite Hfalsy.
Qed.

(** X4: for every refresh token that verifies and whose user-identifier
    claim is the non-zero identifier of a user of the store, [refresh]
    sends a new access token and a new refresh token, both generated from
    the claim [userId] = that identifier, and leaves the store as it
    was. *)
Theorem refresh_issues_tokens (req : Request) (s : Store)
    (data : RefreshRequest) (payload : JsObject) (u : User) :
  RefreshRequestSchema (body req) = Some data ->
  verifyRefreshToken (refreshToken data) = inr payload ->
  get payload "userId" = JNum (Int (id u)) ->
  id u <> 0 ->
  uniqueKeys s ->
  In u (users s) ->
  run (refresh req) s =
  (inr (JObj
          [ ("message", JStr "Validación de sesión exitosa.");
            ("accessToken",
             JStr (generateAccessToken [("userId", JNum (Int (id u)))]));
            ("refreshToken",
             JStr (generateRefreshToken [("userId", JNum (Int (id u)))])) ]),
   s).
Proof.
  intros Hbody Htoken Hclaim Hnz Huniq Hin.
  rewrite (refresh_decoded req s data payload Hbody Htoken), Hclaim.
  cbn [truthy number_truthy].
  destruct (Z.eqb_spec (id u) 0); [contradiction|]. cbn [negb].
  now rewrite (findUser_by_id s u Huniq Hin).
Qed.

(** X6: login followed by refresh.  When the codec verifies the refresh
    token it generated for a user back to that user's identifier, and the
    identifier is not 0, a second request that carries the refresh token
    found in the response of a successful [authenticate] is accepted by
    [refresh], which sends a token pair generated for the same user. *)
Theorem login_then_refresh (login again : Request) (s : Store)
    (data : LoginRequest) (claims : JsObject) (u : User)
    (data' : RefreshRequest) (payload : JsObject) :
  LoginRequestSchema (body login) = Some data ->
  readToken (token data) = inr (Some claims) ->
  lookup "email" claims = Some (JStr (email u)) ->
  email u <> "" ->
  uniqueKeys s ->
  In u (users s) ->
  id u <> 0 ->
  RefreshRequestSchema (body again) = Some data' ->
  refreshToken data' = generateRefreshToken [("userId", JNum (Int (id u)))] ->
  verifyRefreshToken (generateRefreshToken [("userId", JNum (Int (id u)))])
  = inr payload ->
  get payload "userId" = JNum (Int (id u)) ->
  exists response,
    run (authenticate login) s = (inr (JObj response), s)
    /\ get response "refreshToken" = JStr (refreshToken data')
    /\ run (refresh again) s =
       (inr (sessionResponse "Validación de sesión exitosa." u), s).
Proof.
  intros Hbody Htoken Hclaim Hne Huniq Hin Hnz Hbody' Hissued Htoken' Hclaim'.
  rewrite <- Hissued in Htoken'.
  eexists. split; [|split].
  - rewrite (authenticate_decoded login s data (Some claims) Hbody Htoken).
    unfold get_opt, get. rewrite Hclaim.
    rewrite (truthy_string _ Hne). cbn [negb].
    rewrite (findUser_by_email s u Huniq Hin). reflexivity.
  - rewrite Hissued. reflexivity.
  - rewrite (refresh_decoded again s data' payload Hbody' Htoken'), Hclaim'.
    cbn [truthy number_truthy].
    destruct (Z.eqb_spec (id u) 0); [contradiction|]. cbn [negb].
    now rewrite (findUser_by_id s u Huniq Hin).
Qed.

(** X7: a user whose identifier is 0 can log in but not refresh: with the
    same codec, [authenticate] succeeds for that user, and [refresh] then
    rejects the refresh token found in that response with InvalidToken. *)
Theorem login_then_refresh_id_zero (login again : Request) (s : Store)
    (data : LoginRequest) (claims : JsObject) (u : User)
    (data' : RefreshRequest) (payload : JsObject) :
  LoginRequestSchema (body login) = Some data ->
  readToken (token data) = inr (Some claims) ->
  lookup "email" claims = Some (JStr (email u)) ->
  email u <> "" ->
  uniqueKeys s ->
  In u (users s) ->
  id u = 0 ->
  RefreshRequestSchema (body again) = Some data' ->
  refreshToken data' = generateRefreshToken [("userId", JNum (Int (id u)))] ->
  verifyRefreshToken (generateRefreshToken [("userId", JNum (Int (id u)))])
  = inr payload ->
  get payload "userId" = JNum (Int (id u)) ->
  exists response,
    run (authenticate login) s = (inr (JObj response), s)
    /\ get response "refreshToken" = JStr (refreshToken data')
    /\ run (refresh again) s =
       (inl (InvalidTokenError "Token de actualización inválido."), s).
Proof.
  intros Hbody Htoken Hclaim Hne Huniq Hin Hz Hbody' Hissued Htoken' Hclaim'.
  rewrite <- Hissued in Htoken'.
  eexists. split; [|split].
  - rewrite (authenticate_decoded login s data (Some claims) Hbody Htoken).
    unfold get_opt, get. rewrite Hclaim.
    rewrite (truthy_string _ Hne). cbn [negb].
    rewrite (findUser_by_email s u Huniq Hin). reflexivity.
  - rewrite Hissued. reflexivity.
  - rewrite (refresh_decoded again s data' payload Hbody' Htoken'), Hclaim'.
    now rewrite Hz.
Qed.

End SessionFacts.

Lemma authenticate_without_email_witness :
  authenticate (request "" (loginBody "garbage") ana) =
  Throw (InvalidTokenError "Token inválido.")
  /\ authenticate (request "" (loginBody "login.") ana) =
     Throw (InvalidTokenError "Token inválido.").
Proof.
  split.
  - refine (authenticate_without_email (request "" (loginBody "garbage") ana)
              (mkLoginRequest "garbage") None _ _ _); reflexivity.
  - refine (authenticate_without_email (request "" (loginBody "login.") ana)
              (mkLoginRequest "login.") (Some [("email", JStr "")]) _ _ _);
      reflexivity.
Defined.

Lemma refresh_issues_tokens_witness :
  run (refresh (request "" (refreshBody "refresh.8") ana)) store =
  (inr (JObj [ ("message", JStr "Validación de sesión exitosa.");
               ("accessToken", JStr "access.8");
               ("refreshToken", JStr "refresh.8") ]), store).
Proof.
  refine (refresh_issues_tokens (request "" (refreshBody "refresh.8") ana)
            store (mkRefreshRequest "refresh.8") [("userId", JNum (Int 8))]
            bo _ _ _ _ store_uniqueKeys _); try reflexivity.
  - discriminate.
  - simpl. right. now left.
Defined.

Lemma login_then_refresh_witness :
  exists response,
    run (authenticate (request "" (loginBody "login.a@x.com") ana)) store
    = (inr (JObj response), store)
    /\ get response "refreshToken" = JStr "refresh.7"
    /\ run (refresh (request "" (refreshBody "refresh.7") ana)) store =
       (inr (JObj [ ("message", JStr "Validación de sesión exitosa.");
                    ("accessToken", JStr "access.7");
                    ("refreshToken", JStr "refresh.7") ]), store).
Proof.
  refine (login_then_refresh
            (request "" (loginBody "login.a@x.com") ana)
            (request "" (refreshBody "refresh.7") ana) store
            (mkLoginRequest "login.a@x.com") [("email", JStr "a@x.com")] ana
            (mkRefreshRequest "refresh.7") [("userId", JNum (Int 7))]
            _ _ _ _ store_uniqueKeys _ _ _ _ _ _); try reflexivity.
  - discriminate.
  - simpl. now left.
  - discriminate.
Defined.

Lemma login_then_refresh_id_zero_witness :
  exists response,
    run (authenticate (request "" (loginBody "login.z@x.com") ana)) storeZero
    = (inr (JObj response), storeZero)
    /\ get response "refreshToken" = JStr "refresh.0"
    /\ run (refresh (request "" (refreshBody "refresh.0") ana)) storeZero =
       (inl (InvalidTokenError "Token de actualización inválido."),
        storeZero).
Proof.
  refine (login_then_refresh_id_zero
            (request "" (loginBody "login.z@x.com") ana)
            (request "" (refreshBody "refresh.0") ana) storeZero
            (mkLoginRequest "login.z@x.com") [("email", JStr "z@x.com")] zed
            (mkRefreshRequest "refresh.0") [("userId", JNum (Int 0))]
            _ _ _ _ storeZero_uniqueKeys _ _ _ _ _ _); try reflexivity.
  - discriminate.
  - simpl. now left.
Defined.

(** ** User management, further *)

Lemma findUser_id_found (z : Z) (s : Store) (u : User) :
  findUser (WhereId (JNum (Int z))) s = Some u ->
  In u (users s) /\ id u = z.
Proof.
  intro E. apply find_some in E as [Hin Hm]. split; [exact Hin|].
  simpl in Hm. apply Z.eqb_eq in Hm. congruence.
Qed.

Lemma findUser_id_absent (n : number) (s : Store) :
  (forall u, In u (users s) -> n <> Int (id u)) ->
  findUser (WhereId (JNum n)) s = None.
Proof.
  intro Hnone. apply find_absent. intros u Hu. simpl.
  destruct (number_is n (id u)) eqn:E; [|reflexivity].
  apply number_is_true in E. now apply Hnone in Hu.
Qed.

Lemma findUser_email_absent (e : string) (s : Store) :
  (forall u, In u (users s) -> email u <> e) ->
  findUser (WhereEmail (JStr e)) s = None.
Proof.
  intro Hnone. apply find_absent. intros u Hu. simpl.
  destruct (String.eqb_spec e (email u)) as [->|_]; [|reflexivity].
  now apply Hnone in Hu.
Qed.

Lemma findUser_email_found (e : string) (s : Store) (u : User) :
  findUser (WhereEmail (JStr e)) s = Some u ->
  In u (users s) /\ email u = e.
Proof.
  intro E. apply find_some in E as [Hin Hm]. split; [exact Hin|].
  simpl in Hm. apply String.eqb_eq in Hm. congruence.
Qed.

Lemma number_is_false (n : number) (z : Z) :
  n <> Int z -> number_is n z = false.
Proof.
  intro Hne. destruct (number_is n z) eqn:E; [|reflexivity].
  now apply number_is_true in E.
Qed.

Lemma filter_none {A : Type} (f : A -> bool) (xs : list A) :
  (forall x, In x xs -> f x = false) -> filter f xs = [].
Proof.
  induction xs as [|x xs IH]; simpl; intro Hall; [reflexivity|].
  rewrite (Hall x (or_introl eq_refl)). apply IH.
  intros y Hy. apply Hall. now right.
Qed.

Section UsersFurther.
Context {B : JsBuiltins} {S : Schemas}.

(** X8: when the path parameter converts to a number that is the
    identifier of no user of the store (NaN, a non-integer, or an unused
    integer), [getUserById], [updateUser] (once its body is parsed) and
    [deleteUser] (unless that number is the caller's identifier) throw
    EntityNotFoundError for "Usuario" with that number as [id], and leave
    the store as it was; [deleteUser] does so even if tickets refer to that
    number. *)
Theorem unknown_user_not_found (req : Request) (s : Store) :
  (forall u, In u (users s) -> Number (params_userId req) <> Int (id u)) ->
  let notFound :=
    (inl (EntityNotFoundError "Usuario"
            (JObj [("id", JNum (Number (params_userId req)))])), s) in
  run (getUserById req) s = notFound
  /\ (forall r data,
         UserUpdateRequestSchema (body req) = Some (r, data) ->
         run (updateUser req) s = notFound)
  /\ (Number (params_userId req) <> Int (id (user_row (currentUser req))) ->
      run (deleteUser req) s = notFound).
Proof.
  intros Hnone notFound. subst notFound.
  pose proof (run_validateUser_missing _ s (findUser_id_absent _ s Hnone))
    as Hmissing.
  split; [|split].
  - unfold getUserById. now rewrite run_bind, Hmissing.
  - intros r data Hbody. unfold updateUser, validateAndParse.
    rewrite Hbody. cbn [bind]. now rewrite run_bind, Hmissing.
  - intro Hother. unfold deleteUser.
    rewrite (number_is_false _ _ Hother).
    now rewrite run_bind, Hmissing.
Qed.

(** X9: for a path parameter that converts to the identifier of a user of
    the store whose role is in the store, [getUserById] sends that user's
    row with its role, mapped by [mapToUserResponse], and leaves the store
    as it was. *)
Theorem getUserById_found (req : Request) (s : Store) (u : User) (r : Role) :
  Number (params_userId req) = Int (id u) ->
  uniqueKeys s ->
  In u (users s) ->
  findRole (Int (roleId u)) s = Some r ->
  run (getUserById req) s = (inr (mapToUserResponse (mkUserWithRole u r)), s).
Proof.
  intros Hnum Huniq Hin Hrole.
  pose proof (findUser_by_id s u Huniq Hin) as Hfind.
  unfold getUserById. rewrite Hnum, run_bind.
  rewrite (run_validateUser_found _ s u Hfind).
  cbn [await bind run perform]. rewrite Hfind.
  unfold includeRole. now rewrite Hrole.
Qed.

(** X11: when the path parameter converts to the identifier of a user of
    the store other than the caller, and no ticket has that identifier as
    assignee or supervisor, [deleteUser] sends the message "Usuario
    eliminado." and removes from the store exactly the rows with that
    identifier: every other row, the roles and the tickets stay, and a
    [getUserById] for the same parameter then fails with
    EntityNotFoundError. *)
Theorem deleteUser_removes (req : Request) (s : Store) (u : User) :
  Number (params_userId req) = Int (id u) ->
  id u <> id (user_row (currentUser req)) ->
  In u (users s) ->
  (forall t, In t (tickets s) ->
             assigneeId t <> id u /\ supervisorId t <> id u) ->
  let s' := snd (run (deleteUser req) s) in
  fst (run (deleteUser req) s) =
  inr (JObj [("message", JStr "Usuario eliminado.")])
  /\ (forall x, In x (users s') <-> In x (users s) /\ id x <> id u)
  /\ roles s' = roles s
  /\ tickets s' = tickets s
  /\ failsWith EntityNotFound (run (getUserById req) s').
Proof.
  intros Hnum Hother Hin Hfree s'.
  destruct (findUser_id_exists s u Hin) as [u' Hfind].
  destruct (findUser_id_found _ s u' Hfind) as [_ Hid].
  assert (run (deleteUser req) s =
          (inr (JObj [("message", JStr "Usuario eliminado.")]),
           setUsers s (filter (fun x => negb (id x =? id u)) (users s))))
    as Hrun.
  { unfold deleteUser. rewrite Hnum. cbn [number_is].
    destruct (Z.eqb_spec (id u) (id (user_row (currentUser req))));
      [contradiction|].
    rewrite run_bind, (run_validateUser_found _ s u' Hfind).
    cbn [await bind run perform].
    assert (filter (fun t => number_is (Int (id u)) (assigneeId t)
                             || number_is (Int (id u)) (supervisorId t))
              (tickets s) = []) as ->.
    { apply filter_none.
      intros t Ht. destruct (Hfree t Ht) as [Ha Hs]. cbn [number_is].
      destruct (Z.eqb_spec (id u) (assigneeId t)); [congruence|].
      destruct (Z.eqb_spec (id u) (supervisorId t)); [congruence|].
      reflexivity. }
    cbn [isEmpty negb await bind run perform]. rewrite Hfind.
    now rewrite Hid. }
  subst s'. rewrite Hrun. cbn [fst snd setUsers users roles tickets].
  split; [reflexivity|]. split; [|split; [reflexivity|split; [reflexivity|]]].
  - intro x. rewrite filter_In, negb_true_iff, Z.eqb_neq. tauto.
  - unfold getUserById. rewrite Hnum, run_bind.
    rewrite run_validateUser_missing; [reflexivity|].
    apply findUser_id_absent. cbn [users]. intros x Hx.
    apply filter_In in Hx as [_ Hx].
    apply negb_true_iff, Z.eqb_neq in Hx. congruence.
Qed.

End UsersFurther.

(** ** Writes: what they store and what they keep *)

Lemma existsb_none {A : Type} (f : A -> bool) (xs : list A) :
  existsb f xs = false <-> forall x, In x xs -> f x = false.
Proof.
  split.
  - intros E x Hx. destruct (f x) eqn:Fx; [|reflexivity].
    assert (existsb f xs = true) by (apply existsb_exists; eauto).
    congruence.
  - intro Hall. induction xs as [|x xs IH]; simpl; [reflexivity|].
    rewrite (Hall x (or_introl eq_refl)). apply IH.
    intros y Hy. apply Hall. now right.
Qed.

Lemma emailTaken_free (e : string) (s : Store) :
  emailTaken e None s = false <-> forall u, In u (users s) -> email u <> e.
Proof.
  unfold emailTaken. rewrite existsb_none. split; intros Hall u Hu.
  - specialize (Hall u Hu). rewrite andb_true_r in Hall.
    now apply String.eqb_neq.
  - rewrite andb_true_r. apply String.eqb_neq. now apply Hall.
Qed.

Lemma emailTaken_others (e : string) (i : Z) (s : Store) :
  emailTaken e (Some i) s = false <->
  forall u, In u (users s) -> email u = e -> id u = i.
Proof.
  unfold emailTaken. rewrite existsb_none. split; intros Hall u Hu.
  - intro He. specialize (Hall u Hu).
    rewrite (proj2 (String.eqb_eq _ _) He) in Hall. simpl in Hall.
    now apply negb_false_iff, Z.eqb_eq in Hall.
  - destruct (String.eqb_spec (email u) e) as [He|_]; [|reflexivity].
    simpl. apply negb_false_iff, Z.eqb_eq. now apply Hall.
Qed.

Lemma nextId_above (us : list User) (x : User) :
  In x us -> id x < nextId us.
Proof.
  unfold nextId. induction us as [|a us IH]; cbn [fold_right In];
    [contradiction|].
  intros [->|Hin]; [lia|]. specialize (IH Hin). lia.
Qed.

(** What a successful [createUser] has done. *)
Lemma createUser_sent {S : Schemas} (req : Request) (s s' : Store)
    (response : JsValue) :
  run (createUser req) s = (inr response, s') ->
  exists r data ro,
    UserCreateRequestSchema (body req) = Some (r, data)
    /\ findRole r s = Some ro
    /\ (forall u, In u (users s) -> email u <> d_email data)
    /\ let u := mkUser (nextId (users s)) (d_firstName data)
                  (d_lastName data) (d_email data) (d_password data)
                  (role_id ro) in
       response = mapToUserResponse (mkUserWithRole u ro)
       /\ s' = setUsers s (users s ++ [u]).
Proof.
  unfold createUser, validateAndParse.
  destruct (UserCreateRequestSchema (body req)) as [[r data]|];
    [|discriminate].
  cbn [bind]. rewrite run_bind, run_validateExistingEmail.
  destruct (findUser (WhereEmail (JStr (d_email data))) s) as [u|] eqn:Hfind;
    [discriminate|].
  cbn [await bind run perform].
  destruct (findRole r s) as [ro|] eqn:Hrole; [|discriminate].
  destruct (emailTaken (d_email data) None s) eqn:Hfree; [discriminate|].
  cbn [run]. intro E. injection E as <- <-.
  exists r, data, ro.
  split; [reflexivity|]. split; [exact Hrole|].
  split; [exact (proj1 (emailTaken_free _ _) Hfree)|]. now split.
Qed.

Lemma find_last {A : Type} (f : A -> bool) (xs : list A) (a : A) :
  (forall x, In x xs -> f x = false) -> f a = true ->
  find f (xs ++ [a]) = Some a.
Proof.
  intros Hnone Ha. induction xs as [|x xs IH]; simpl.
  - now rewrite Ha.
  - rewrite (Hnone x (or_introl eq_refl)). apply IH.
    intros y Hy. apply Hnone. now right.
Qed.

Lemma findRole_own (n : number) (s : Store) (ro : Role) :
  findRole n s = Some ro -> n = Int (role_id ro).
Proof.
  intro E. apply find_some in E as [_ Hm]. now apply number_is_true.
Qed.

Lemma includeRoles_present (s : Store) (us : list User) :
  (forall u, In u us -> exists r, findRole (Int (roleId u)) s = Some r) ->
  exists urs, includeRoles s us = Some urs
              /\ map user_row urs = us
              /\ forall ur, In ur urs ->
                            role_id (role ur) = roleId (user_row ur).
Proof.
  induction us as [|u us IH]; intro Hroles.
  - exists []. simpl. repeat split. intros ur [].
  - destruct (Hroles u (or_introl eq_refl)) as [r Hr].
    destruct IH as [urs [Hurs [Hrows Hids]]].
    { intros x Hx. apply Hroles. now right. }
    exists (mkUserWithRole u r :: urs). simpl. unfold includeRole.
    rewrite Hr, Hurs. split; [reflexivity|]. split; [now rewrite Hrows|].
    intros ur [<-|Hin]; [|now apply Hids]. simpl.
    apply findRole_own in Hr. congruence.
Qed.

Section WritesFacts.
Context {B : JsBuiltins} {S : Schemas}.

(** X12: when the body parses, no user of the store holds its email and
    the role to connect is in the store, [createUser] sends the new row
    mapped by [mapToUserResponse] - the fields of the request, the connected
    role, and an identifier no existing row has - and the store gains
    exactly that row, after the existing ones. *)
Theorem createUser_creates (req : Request) (s : Store) (r : number)
    (data : UserData) (ro : Role) :
  UserCreateRequestSchema (body req) = Some (r, data) ->
  (forall u, In u (users s) -> email u <> d_email data) ->
  findRole r s = Some ro ->
  let u := mkUser (nextId (users s)) (d_firstName data) (d_lastName data)
             (d_email data) (d_password data) (role_id ro) in
  run (createUser req) s =
  (inr (mapToUserResponse (mkUserWithRole u ro)),
   setUsers s (users s ++ [u]))
  /\ forall x, In x (users s) -> id x <> id u.
Proof.
  intros Hbody Hfree Hrole u. split.
  - unfold createUser, validateAndParse. rewrite Hbody. cbn [bind].
    rewrite run_bind, run_validateExistingEmail.
    rewrite (findUser_email_absent _ s Hfree).
    cbn [await bind run perform]. rewrite Hrole.
    now rewrite (proj2 (emailTaken_free _ _) Hfree).
  - intros x Hx. apply nextId_above in Hx. subst u. cbn [id]. lia.
Qed.

(** X13: create, then get.  After a successful [createUser], a
    [getUserById] whose path parameter converts to the [id] of the object
    that [createUser] sent sends that same object and changes nothing. *)
Theorem createUser_then_getUserById (create fetch : Request) (s s' : Store)
    (response : JsObject) :
  run (createUser create) s = (inr (JObj response), s') ->
  get response "id" = JNum (Number (params_userId fetch)) ->
  run (getUserById fetch) s' = (inr (JObj response), s').
Proof.
  intros Hrun Hid.
  apply createUser_sent in Hrun
    as [r [data [ro [_ [Hrole [_ [Hresp Hstore]]]]]]].
  injection Hresp as ->.
  assert (Number (params_userId fetch) = Int (nextId (users s))) as Hnum.
  { cbv [get] in Hid. simpl in Hid. congruence. }
  set (u := mkUser (nextId (users s)) (d_firstName data) (d_lastName data)
              (d_email data) (d_password data) (role_id ro)) in *.
  assert (findUser (WhereId (JNum (Int (nextId (users s))))) s' = Some u)
    as Hfind.
  { subst s'. unfold findUser. cbn [users setUsers]. apply find_last.
    - intros x Hx. simpl. apply Z.eqb_neq.
      apply nextId_above in Hx. lia.
    - simpl. apply Z.eqb_refl. }
  unfold getUserById. rewrite Hnum, run_bind.
  rewrite (run_validateUser_found _ s' u Hfind).
  cbn [await bind run perform]. rewrite Hfind.
  unfold includeRole.
  assert (findRole (Int (roleId u)) s' = Some ro) as ->.
  { subst s'. unfold findRole. cbn [roles setUsers roleId u].
    rewrite <- (findRole_own r s ro Hrole). exact Hrole. }
  reflexivity.
Qed.

(** X14: create twice.  After a successful [createUser], another
    [createUser] whose body carries the same email fails with
    ValidationError and leaves the store as the first one left it. *)
Theorem createUser_twice (first second : Request) (s s' : Store)
    (response : JsValue) (r1 r2 : number) (d1 d2 : UserData) :
  run (createUser first) s = (inr response, s') ->
  UserCreateRequestSchema (body first) = Some (r1, d1) ->
  UserCreateRequestSchema (body second) = Some (r2, d2) ->
  d_email d2 = d_email d1 ->
  failsWith Validation (run (createUser second) s')
  /\ snd (run (createUser second) s') = s'.
Proof.
  intros Hrun Hfirst Hsecond Hemail.
  apply createUser_sent in Hrun
    as [r [data [ro [Hbody [_ [_ [_ Hstore]]]]]]].
  rewrite Hfirst in Hbody. injection Hbody as <- <-.
  set (u := mkUser (nextId (users s)) (d_firstName d1) (d_lastName d1)
              (d_email d1) (d_password d1) (role_id ro)) in *.
  assert (In u (users s')) as Hin.
  { subst s'. cbn [users setUsers]. apply in_or_app. right. now left. }
  unfold createUser, validateAndParse. rewrite Hsecond. cbn [bind].
  rewrite run_bind, run_validateExistingEmail.
  destruct (findUser_email_exists s' u Hin) as [u' [Hfind _]].
  rewrite Hemail. change (d_email d1) with (email u). rewrite Hfind.
  now split.
Qed.

(** X15: when the path parameter converts to the identifier of a user A of
    the store, the body parses, the role to connect is in the store, no
    other user holds the email of the body and, if that email is A's own,
    A's identifier is not 0, [updateUser] sends A's row patched with the
    body - same identifier, the email of the body, the connected role, and
    each optional field only where the body has it - and the store differs
    from before in that row only. *)
Theorem updateUser_updates (req : Request) (s : Store) (r : number)
    (data : UserPatch) (a : User) (ro : Role) :
  Number (params_userId req) = Int (id a) ->
  UserUpdateRequestSchema (body req) = Some (r, data) ->
  uniqueKeys s ->
  In a (users s) ->
  findRole r s = Some ro ->
  (forall b, In b (users s) -> id b <> id a -> email b <> p_email data) ->
  (p_email data = email a -> id a <> 0) ->
  let a' := patchUser a data ro in
  run (updateUser req) s =
  (inr (mapToUserResponse (mkUserWithRole a' ro)),
   setUsers s (map (fun x => if id x =? id a then a' else x) (users s)))
  /\ id a' = id a
  /\ email a' = p_email data.
Proof.
  intros Hnum Hbody Huniq Ha Hrole Hothers Hown a'.
  split; [|now split].
  pose proof (findUser_by_id s a Huniq Ha) as Hfind.
  unfold updateUser, validateAndParse. rewrite Hnum, Hbody. cbn [bind].
  rewrite run_bind, (run_validateUser_found _ s a Hfind).
  rewrite run_bind, run_validateExistingEmail.
  assert (match findUser (WhereEmail (JStr (p_email data))) s with
          | Some user =>
              if isSameUser (Some (Int (id a))) user
              then (inr tt, s)
              else (inl (ValidationError
                           "El correo electrónico ya está en uso."
                           (JObj [("email", JStr (p_email data))])), s)
          | None => (inr tt, s)
          end = (@inr AppError unit tt, s)) as ->.
  { destruct (findUser (WhereEmail (JStr (p_email data))) s) as [b|] eqn:Hb;
      [|reflexivity].
    apply findUser_email_found in Hb as [Hbin Hbe].
    destruct (Z.eq_dec (id b) (id a)) as [Hsame|Hdiff].
    - assert (b = a) as ->.
      { destruct Huniq as [Hids _].
        pose proof (find_by_key id (fun x => id x =? id a) (users s) a Hids)
          as Hk.
        pose proof (find_by_key id (fun x => id x =? id a) (users s) b Hids)
          as Hk'.
        rewrite Hk in Hk'.
        + assert (Some a = Some b) as E; [|congruence].
          apply Hk'; [|exact Hbin].
          intro x. rewrite Z.eqb_eq. split; congruence.
        + intro x. rewrite Z.eqb_eq. split; congruence.
        + exact Ha. }
      cbn [isSameUser number_truthy number_is]. rewrite Z.eqb_refl.
      destruct (Z.eqb_spec (id a) 0) as [Hz|_]; [|reflexivity].
      exfalso. now apply Hown.
    - exfalso. now apply (Hothers b Hbin Hdiff). }
  cbn [await bind run perform]. rewrite Hfind, Hrole.
  assert (emailTaken (p_email data) (Some (id a)) s = false) as ->.
  { apply emailTaken_others. intros b Hb He.
    destruct (Z.eq_dec (id b) (id a)) as [Hsame|Hdiff]; [exact Hsame|].
    exfalso. now apply (Hothers b Hb Hdiff). }
  reflexivity.
Qed.

(** X18: on a store that holds every role its users refer to, [getUsers]
    sends an array with one object per user of the store, in the order of
    the store: the rows, each with the role its [roleId] names, mapped by
    [mapToUserResponse]. *)
Theorem getUsers_lists (req : Request) (s : Store) :
  rolesPresent s ->
  exists urs,
    run (getUsers req) s = (inr (JArr (map mapToUserResponse urs)), s)
    /\ map user_row urs = users s
    /\ forall ur, In ur urs -> role_id (role ur) = roleId (user_row ur).
Proof.
  intro Hroles.
  destruct (includeRoles_present s (users s) Hroles)
    as [urs [Hurs [Hrows Hids]]].
  exists urs. split; [|now split].
  unfold getUsers. cbn [await bind run perform]. now rewrite Hurs.
Qed.

End WritesFacts.

(** X17: [mapToUserResponse] changes nothing but the two fields it is
    about: every property of the user object other than [password] and
    [fullName] is in the response with the same value, so the identifier,
    the email and the role are those of the user. *)
Theorem mapToUserResponse_keeps_fields (u : UserWithRole) :
  exists o,
    mapToUserResponse u = JObj o
    /\ (forall k, k <> "password" -> k <> "fullName" ->
                  lookup k o = lookup k (obj_of_user u))
    /\ lookup "id" o = Some (JNum (Int (id (user_row u))))
    /\ lookup "email" o = Some (JStr (email (user_row u)))
    /\ lookup "role" o = Some (JObj (obj_of_role (role u))).
Proof.
  eexists. split; [reflexivity|].
  assert (forall k, k <> "password" -> k <> "fullName" ->
                    lookup k (set_prop "fullName"
                                (JStr (firstName (user_row u) ++ " "
                                       ++ lastName (user_row u)))
                                (omit (obj_of_user u) ["password"]))
                    = lookup k (obj_of_user u)) as Hkeep.
  { intros k Hp Hf. rewrite lookup_set_prop_other by exact Hp || exact Hf.
    apply lookup_omit_other. intros [E|[]]. now apply Hp. }
  split; [exact Hkeep|].
  repeat split; rewrite Hkeep; try reflexivity; discriminate.
Qed.

(** X19: [validateExistingEmail] passes, whatever [userId] is, when no user
    of the store holds the email; without [userId] it throws
    ValidationError carrying the email as soon as some user holds it; and
    with a [userId], on a store with unique keys where user [u] holds the
    email, it passes exactly when [userId] is [u]'s identifier and that
    identifier is not 0. *)
Theorem validateExistingEmail_spec (e : string) (s : Store) :
  ((forall u, In u (users s) -> email u <> e) ->
   forall userId, run (validateExistingEmail e userId) s = (inr tt, s))
  /\ (forall u, In u (users s) -> email u = e ->
                run (validateExistingEmail e None) s =
                (inl (ValidationError "El correo electrónico ya está en uso."
                        (JObj [("email", JStr e)])), s))
  /\ (forall u n, uniqueKeys s -> In u (users s) -> email u = e ->
                  (run (validateExistingEmail e (Some n)) s = (inr tt, s)
                   <-> n = Int (id u) /\ id u <> 0)).
Proof.
  split; [|split].
  - intros Hfree userId. rewrite run_validateExistingEmail.
    now rewrite (findUser_email_absent e s Hfree).
  - intros u Hu He. rewrite run_validateExistingEmail.
    destruct (findUser_email_exists s u Hu) as [u' [Hfind _]].
    rewrite <- He, Hfind. reflexivity.
  - intros u n Huniq Hu He. rewrite run_validateExistingEmail.
    rewrite <- He, (findUser_by_email s u Huniq Hu).
    cbn [isSameUser].
    destruct (number_truthy n && number_is n (id u)) eqn:E.
    + split; [intros _|reflexivity].
      apply andb_true_iff in E as [Ht Hi]. apply number_is_true in Hi.
      subst n. split; [reflexivity|]. simpl in Ht.
      now apply negb_true_iff, Z.eqb_neq in Ht.
    + split; [discriminate|]. intros [-> Hnz].
      cbn [number_truthy number_is] in E. rewrite Z.eqb_refl in E.
      destruct (Z.eqb_spec (id u) 0); [contradiction|discriminate].
Qed.

(** ** The client's request helper *)

Lemma readError_throws (v : JsValue) :
  Client.readError v = None <-> v = JUndefined \/ v = JNull.
Proof.
  destruct v; simpl; split; intro H; auto; try discriminate H;
    destruct H as [H|H]; discriminate H.
Qed.

Section ClientFacts.
Context {E : Client.ClientEnv}.

(** X20: whatever the environment, the URL [api] asks for is the path
    appended to a base that is never empty: [API_URL] when it is set and
    not the empty string, the local default otherwise.  The variables
    travel once: for the method "get" as query parameters with no body, for
    any other method string (so for "post", "put" and "delete", and also
    for "GET" in capitals) as the body with no query parameters. *)
Theorem api_request_shape (path : string) (variables : JsValue) :
  Client.baseURL <> ""
  /\ (forall u, Client.API_URL = Some u -> u <> "" -> Client.baseURL = u)
  /\ (Client.API_URL = None \/ Client.API_URL = Some "" ->
      Client.baseURL = "http://localhost:4000")
  /\ Client.requestConfig "get" path variables =
     Client.mkConfig (Client.baseURL ++ path) "get" Client.defaultHeaders
       variables JUndefined
  /\ (forall m, m <> "get" ->
                Client.requestConfig m path variables =
                Client.mkConfig (Client.baseURL ++ path) m
                  Client.defaultHeaders JUndefined variables).
Proof.
  unfold Client.baseURL, Client.requestConfig.
  split; [|split; [|split; [|split]]].
  - destruct Client.API_URL as [u|]; [|discriminate].
    destruct (String.eqb_spec u ""); [discriminate|assumption].
  - intros u -> Hne. destruct (String.eqb_spec u ""); [contradiction|].
    reflexivity.
  - intros [-> | ->]; reflexivity.
  - reflexivity.
  - intros m Hm. destruct (String.eqb_spec m "get"); [contradiction|].
    reflexivity.
Qed.

(** X21: [api] resolves exactly when [axios] resolves, with the data of
    the response; when [axios] rejects without a response it rejects with
    the fixed error of code INTERNAL_ERROR and status 503; when [axios]
    rejects with a response whose body is an object it rejects with the
    [error] property of that body. *)
Theorem api_outcome (m path : string) (variables : JsValue) :
  (forall d,
      Client.api m path variables = Client.Resolved d <->
      exists r, Client.axios (Client.requestConfig m path variables)
                = Client.Resolved r
                /\ Client.response_data r = d)
  /\ (forall err,
         Client.axios (Client.requestConfig m path variables)
         = Client.RejectedWith err ->
         (Client.response err = None ->
          Client.api m path variables
          = Client.RejectedWith
              (JObj [ ("code", JStr "INTERNAL_ERROR");
                      ("message", JStr "Algo salió mal.");
                      ("status", JNum (Int 503));
                      ("data", JObj []) ]))
         /\ (forall r o,
                Client.response err = Some r ->
                Client.response_data r = JObj o ->
                Client.api m path variables
                = Client.RejectedWith (get o "error"))).
Proof.
  unfold Client.api. split.
  - intro d. split.
    + destruct (Client.axios _) as [r|err|].
      * intro H. injection H as <-. eauto.
      * destruct (Client.response err) as [r|];
          [destruct (Client.readError _)|]; intro H; discriminate H.
      * intro H. discriminate H.
    + intros [r [-> <-]]. reflexivity.
  - intros err ->. split.
    + intros ->. reflexivity.
    + intros r o -> Hdata. now rewrite Hdata.
Qed.

(** X22: the promise [api] returns never settles in exactly two cases:
    [axios] itself never settles, or [axios] rejects with a response whose
    body is [undefined] or [null] - reading [error] from that body throws
    inside the rejection handler, which then calls neither [resolve] nor
    [reject]. *)
Theorem api_never_settles (m path : string) (variables : JsValue) :
  Client.api m path variables = Client.Pending <->
  Client.axios (Client.requestConfig m path variables) = Client.Pending
  \/ exists err r,
       Client.axios (Client.requestConfig m path variables)
       = Client.RejectedWith err
       /\ Client.response err = Some r
       /\ (Client.response_data r = JUndefined
           \/ Client.response_data r = JNull).
Proof.
  unfold Client.api.
  destruct (Client.axios _) as [r|err|].
  - split; [discriminate|].
    intros [H|[err' [r' [H _]]]]; discriminate H.
  - destruct (Client.response err) as [r|] eqn:Hr.
    + destruct (Client.readError (Client.response_data r)) as [e|] eqn:He.
      * split; [intro H; discriminate H|].
        intros [H|[err' [r' [H [Hr' Hd']]]]]; [discriminate H|].
        injection H as <-. rewrite Hr in Hr'. injection Hr' as <-.
        apply readError_throws in Hd'. congruence.
      * split; [|reflexivity]. intros _. right. exists err, r.
        split; [reflexivity|]. split; [exact Hr|].
        now apply readError_throws.
    + split; [discriminate|].
      intros [H|[err' [r' [H [Hr' _]]]]]; [discriminate H|].
      injection H as <-. congruence.
  - split; [now left|reflexivity].
Qed.

End ClientFacts.

(** ** The further properties on the example store *)

Lemma store_rolesPresent : rolesPresent store.
Proof.
  intros u [<-|[<-|[]]]; exists admin; reflexivity.
Defined.

Lemma unknown_user_not_found_witness :
  run (getUserById (request "9" JNull ana)) store =
  (inl (EntityNotFoundError "Usuario" (JObj [("id", JNum (Int 9))])), store)
  /\ run (deleteUser (request "9" JNull ana)) store =
     (inl (EntityNotFoundError "Usuario" (JObj [("id", JNum (Int 9))])),
      store).
Proof.
  assert (forall u, In u (users store) ->
                    Number (params_userId (request "9" JNull ana))
                    <> Int (id u)) as Hnone.
  { simpl. intros u [<-|[<-|[]]]; discriminate. }
  pose proof (unknown_user_not_found (request "9" JNull ana) store Hnone)
    as [Hget [_ Hdelete]].
  split; [exact Hget|]. apply Hdelete. discriminate.
Defined.

Lemma getUserById_found_witness :
  run (getUserById (request "8" JNull ana)) store =
  (inr (mapToUserResponse (mkUserWithRole bo admin)), store).
Proof.
  refine (getUserById_found (request "8" JNull ana) store bo admin
            _ store_uniqueKeys _ _); try reflexivity.
  simpl. right. now left.
Defined.

Lemma deleteUser_removes_witness :
  fst (run (deleteUser (request "7" JNull zed)) storeZero) =
  inr (JObj [("message", JStr "Usuario eliminado.")])
  /\ users (snd (run (deleteUser (request "7" JNull zed)) storeZero)) = [zed].
Proof.
  assert (W := deleteUser_removes (request "7" JNull zed) storeZero ana).
  destruct W as [Hsent _].
  - reflexivity.
  - discriminate.
  - simpl. right. now left.
  - intros t [].
  - split; [exact Hsent|reflexivity].
Defined.

Lemma createUser_creates_witness :
  run (createUser (request "" (userBody "Cy" "Di" "c@x.com" "pw" 1) ana))
    store =
  (inr (mapToUserResponse
          (mkUserWithRole (mkUser 9 "Cy" "Di" "c@x.com" "pw" 1) admin)),
   mkStore [ana; bo; mkUser 9 "Cy" "Di" "c@x.com" "pw" 1] [admin]
     [mkTicket 1 8 7]).
Proof.
  refine (proj1 (createUser_creates
                   (request "" (userBody "Cy" "Di" "c@x.com" "pw" 1) ana)
                   store (Int 1) (mkUserData "Cy" "Di" "c@x.com" "pw") admin
                   _ _ _)); try reflexivity.
  simpl. intros u [<-|[<-|[]]]; discriminate.
Defined.

Lemma createUser_then_getUserById_witness :
  exists response s',
    run (createUser (request "" (userBody "Cy" "Di" "c@x.com" "pw" 1) ana))
      store = (inr (JObj response), s')
    /\ run (getUserById (request "9" JNull ana)) s'
       = (inr (JObj response), s').
Proof.
  eexists. eexists. split; [reflexivity|].
  refine (createUser_then_getUserById
            (request "" (userBody "Cy" "Di" "c@x.com" "pw" 1) ana)
            (request "9" JNull ana) store _ _ _ _); reflexivity.
Defined.

Lemma createUser_twice_witness :
  exists s',
    snd (run (createUser
                (request "" (userBody "Cy" "Di" "c@x.com" "pw" 1) ana))
           store) = s'
    /\ In (mkUser 9 "Cy" "Di" "c@x.com" "pw" 1) (users s')
    /\ failsWith Validation
         (run (createUser
                 (request "" (userBody "Cat" "Doe" "c@x.com" "pw2" 1) bo))
            s').
Proof.
  eexists. split; [reflexivity|]. split; [simpl; tauto|].
  refine (proj1 (createUser_twice
                   (request "" (userBody "Cy" "Di" "c@x.com" "pw" 1) ana)
                   (request "" (userBody "Cat" "Doe" "c@x.com" "pw2" 1) bo)
                   store _ _ (Int 1) (Int 1)
                   (mkUserData "Cy" "Di" "c@x.com" "pw")
                   (mkUserData "Cat" "Doe" "c@x.com" "pw2") _ _ _ _));
    reflexivity.
Defined.

Lemma updateUser_updates_witness :
  run (updateUser
         (request "7"
            (JObj [ ("firstName", JStr "Anna"); ("email", JStr "a@x.com");
                    ("roleId", JNum (Int 1)) ]) ana)) store =
  (inr (mapToUserResponse
          (mkUserWithRole (mkUser 7 "Anna" "Paz" "a@x.com" "s3cret" 1)
             admin)),
   mkStore [mkUser 7 "Anna" "Paz" "a@x.com" "s3cret" 1; bo] [admin]
     [mkTicket 1 8 7]).
Proof.
  refine (proj1 (updateUser_updates
                   (request "7"
                      (JObj [ ("firstName", JStr "Anna");
                              ("email", JStr "a@x.com");
                              ("roleId", JNum (Int 1)) ]) ana)
                   store (Int 1)
                   (mkUserPatch (Some "Anna") None "a@x.com" None) ana admin
                   _ _ store_uniqueKeys _ _ _ _)); try reflexivity.
  - simpl. now left.
  - simpl. intros b [<-|[<-|[]]] Hid; [now contradiction Hid|discriminate].
  - discriminate.
Defined.

Lemma getUsers_lists_witness :
  exists urs,
    run (getUsers (request "" JNull ana)) store
    = (inr (JArr (map mapToUserResponse urs)), store)
    /\ map user_row urs = [ana; bo]
    /\ forall ur, In ur urs -> role_id (role ur) = roleId (user_row ur).
Proof.
  exact (getUsers_lists (request "" JNull ana) store store_rolesPresent).
Defined.

Lemma validateExistingEmail_spec_witness :
  run (validateExistingEmail "c@x.com" (Some (Int 7))) store = (inr tt, store)
  /\ run (validateExistingEmail "b@x.com" None) store =
     (inl (ValidationError "El correo electrónico ya está en uso."
             (JObj [("email", JStr "b@x.com")])), store)
  /\ run (validateExistingEmail "b@x.com" (Some (Int 8))) store
     = (inr tt, store).
Proof.
  split; [|split].
  - refine (proj1 (validateExistingEmail_spec "c@x.com" store) _ _).
    simpl. intros u [<-|[<-|[]]]; discriminate.
  - refine (proj1 (proj2 (validateExistingEmail_spec "b@x.com" store))
              bo _ _); [simpl; tauto|reflexivity].
  - refine (proj2 (proj2 (proj2 (validateExistingEmail_spec "b@x.com" store))
                     bo (Int 8) store_uniqueKeys _ _) _).
    + simpl. tauto.
    + reflexivity.
    + split; [reflexivity|discriminate].
Defined.

Lemma api_request_shape_witness :
  Client.requestConfig "delete" "/users/8" JUndefined =
  Client.mkConfig "http://localhost:4000/users/8" "delete"
    [("Content-Type", JStr "application/json")] JUndefined JUndefined
  /\ Client.requestConfig "GET" "/users" (JObj [("page", JNum (Int 2))]) =
     Client.mkConfig "http://localhost:4000/users" "GET"
       [("Content-Type", JStr "application/json")] JUndefined
       (JObj [("page", JNum (Int 2))]).
Proof.
  split.
  - refine (proj2 (proj2 (proj2 (proj2
              (api_request_shape "/users/8" JUndefined)))) "delete" _).
    discriminate.
  - refine (proj2 (proj2 (proj2 (proj2
              (api_request_shape "/users" (JObj [("page", JNum (Int 2))])))))
              "GET" _).
    discriminate.
Defined.

Lemma api_outcome_witness :
  Client.apiMethods.get "/users" JUndefined = Client.Resolved (JArr [])
  /\ Client.apiMethods.get "/down" JUndefined =
     Client.RejectedWith
       (JObj [ ("code", JStr "INTERNAL_ERROR");
               ("message", JStr "Algo salió mal.");
               ("status", JNum (Int 503));
               ("data", JObj []) ])
  /\ Client.apiMethods.delete "/users/0" JUndefined =
     Client.RejectedWith
       (JObj [("code", JStr "ENTITY_NOT_FOUND"); ("status", JNum (Int 404))]).
Proof.
  split; [|split].
  - refine (proj2 (proj1 (api_outcome "get" "/users" JUndefined) (JArr []))
              _).
    eexists. split; reflexivity.
  - refine (proj1 (proj2 (api_outcome "get" "/down" JUndefined)
                     (Client.mkError None) _) _); reflexivity.
  - refine (proj2 (proj2 (api_outcome "delete" "/users/0" JUndefined)
                     _ _)
              _ [("error", JObj [("code", JStr "ENTITY_NOT_FOUND");
                                 ("status", JNum (Int 404))])] _ _);
      reflexivity.
Defined.

Lemma api_never_settles_witness :
  Client.apiMethods.post "/null" JUndefined = Client.Pending.
Proof.
  refine (proj2 (api_never_settles "post" "/null" JUndefined) _).
  right. eexists. eexists. split; [reflexivity|]. split; [reflexivity|].
  now right.
Defined.

(** ** What a delete can remove *)

Section DeleteFacts.
Context {B : JsBuiltins} {S : Schemas}.

(** What a successful [deleteUser] has checked and done. *)
Lemma deleteUser_sent (req : Request) (s s' : Store) (response : JsValue) :
  run (deleteUser req) s = (inr response, s') ->
  exists u,
    Number (params_userId req) = Int (id u)
    /\ id u <> id (user_row (currentUser req))
    /\ (forall t, In t (tickets s) ->
                  assigneeId t <> id u /\ supervisorId t <> id u)
    /\ s' = setUsers s (filter (fun x => negb (id x =? id u)) (users s)).
Proof.
  unfold deleteUser.
  destruct (number_is (Number (params_userId req))
              (id (user_row (currentUser req)))) eqn:Hself; [discriminate|].
  rewrite run_bind.
  destruct (findUser (WhereId (JNum (Number (params_userId req)))) s)
    as [u|] eqn:Hfind.
  - rewrite (run_validateUser_found _ s u Hfind).
    cbn [await bind run perform].
    destruct (filter _ (tickets s)) as [|t ts] eqn:Hfilter;
      cbn [isEmpty negb]; [|discriminate].
    cbn [await bind run perform]. rewrite Hfind. cbn [run].
    intro E. injection E as _ <-.
    apply find_some in Hfind as [_ Hm]. simpl in Hm.
    apply number_is_true in Hm.
    exists u. split; [exact Hm|]. split; [|split; [|reflexivity]].
    + intro Hsame. rewrite Hm in Hself. cbn [number_is] in Hself.
      rewrite Hsame, Z.eqb_refl in Hself. discriminate Hself.
    + intros t Ht.
      assert (number_is (Number (params_userId req)) (assigneeId t)
              || number_is (Number (params_userId req)) (supervisorId t)
              = false) as Hno.
      { destruct (_ || _) eqn:E; [|reflexivity].
        assert (In t []) as Hin; [|destruct Hin].
        rewrite <- Hfilter. apply filter_In. now split. }
      rewrite Hm in Hno. cbn [number_is] in Hno.
      apply orb_false_iff in Hno as [Ha Hs].
      apply Z.eqb_neq in Ha, Hs. split; congruence.
  - rewrite (run_validateUser_missing _ s Hfind). discriminate.
Qed.

(** X23: [deleteUser] never removes the caller's own row: on every
    request, whatever its path parameter, if the caller's row is in the
    store before, it is in the store afterwards. *)
Theorem deleteUser_keeps_caller (req : Request) (s : Store) :
  In (user_row (currentUser req)) (users s) ->
  In (user_row (currentUser req)) (users (snd (run (deleteUser req) s))).
Proof.
  intro Hin.
  destruct (run (deleteUser req) s) as [[e|response] s'] eqn:Hrun.
  - pose proof (writesLast_run _ s e (writesLast_deleteUser req)) as Hsame.
    rewrite Hrun in Hsame. cbn [fst snd] in *. now rewrite Hsame.
  - apply deleteUser_sent in Hrun as [u [_ [Hother [_ ->]]]].
    cbn [snd setUsers users]. apply filter_In. split; [exact Hin|].
    apply negb_true_iff, Z.eqb_neq. congruence.
Qed.

End DeleteFacts.

Lemma deleteUser_keeps_caller_witness :
  In ana (users (snd (run (deleteUser (request "8" JNull ana)) store)))
  /\ In zed (users (snd (run (deleteUser (request "7" JNull zed))
                           storeZero))).
Proof.
  split.
  - refine (deleteUser_keeps_caller (request "8" JNull ana) store _).
    simpl. now left.
  - refine (deleteUser_keeps_caller (request "7" JNull zed) storeZero _).
    simpl. now left.
Defined.


(** ** What the session handlers themselves throw *)

Section SessionThrows.
Context {T : AuthToken} {S : Schemas}.

(** X5: once the login token has been read, every [throw] that
    [authenticate] can reach is an InvalidTokenError or an
    UnauthorizedError; once the refresh token has been verified, every
    [throw] that [refresh] can reach is an InvalidTokenError.  Any other
    failure of the two handlers can only be one the database call raises. *)
Theorem session_errors (req : Request) :
  (forall data tokenData,
      LoginRequestSchema (body req) = Some data ->
      readToken (token data) = inr tokenData ->
      throwsOnly (fun k => k = InvalidToken \/ k = Unauthorized)
        (authenticate req))
  /\ (forall data payload,
         RefreshRequestSchema (body req) = Some data ->
         verifyRefreshToken (refreshToken data) = inr payload ->
         throwsOnly (fun k => k = InvalidToken) (refresh req)).
Proof.
  split.
  - intros data tokenData Hbody Htoken.
    unfold authenticate, validateAndParse. rewrite Hbody. cbn [bind].
    rewrite Htoken. cbn [attempt bind].
    destruct (negb _); cbn [await bind throwsOnly kind]; [now left|].
    intros [user|]; cbn [throwsOnly kind]; [exact I|now right].
  - intros data payload Hbody Htoken.
    unfold refresh, validateAndParse. rewrite Hbody. cbn [bind].
    rewrite Htoken. cbn [attempt bind].
    destruct (negb _); cbn [await bind throwsOnly kind]; [reflexivity|].
    intros [user|]; cbn [throwsOnly kind]; [exact I|reflexivity].
Qed.

End SessionThrows.

Lemma session_errors_witness :
  throwsOnly (fun k => k = InvalidToken \/ k = Unauthorized)
    (authenticate (request "" (loginBody "login.q@x.com") ana))
  /\ throwsOnly (fun k => k = InvalidToken)
       (refresh (request "" (refreshBody "refresh.5") ana)).
Proof.
  split.
  - refine (proj1 (session_errors
                     (request "" (loginBody "login.q@x.com") ana))
              (mkLoginRequest "login.q@x.com")
              (Some [("email", JStr "q@x.com")]) _ _); reflexivity.
  - refine (proj2 (session_errors
                     (request "" (refreshBody "refresh.5") ana))
              (mkRefreshRequest "refresh.5") [("userId", JNum (Int 5))]
              _ _); reflexivity.
Defined.

(** ** The user objects the handlers send *)

Lemma mapToUserResponse_object (u : UserWithRole) :
  userObject (user_row u) (mapToUserResponse u).
Proof.
  unfold userObject, mapToUserResponse. eexists. split; [reflexivity|].
  split; [|split; [|split; [|split; [|split]]]].
  - rewrite lookup_set_prop_other by discriminate.
    apply lookup_omit. now left.
  - apply lookup_set_prop.
  - rewrite lookup_set_prop_other by discriminate.
    rewrite lookup_omit_other; [reflexivity|]. intros [E|[]]; discriminate.
  - rewrite lookup_set_prop_other by discriminate.
    rewrite lookup_omit_other; [reflexivity|]. intros [E|[]]; discriminate.
  - rewrite lookup_set_prop_other by discriminate.
    rewrite lookup_omit_other; [reflexivity|]. intros [E|[]]; discriminate.
  - rewrite lookup_set_prop_other by discriminate.
    rewrite lookup_omit_other; [reflexivity|]. intros [E|[]]; discriminate.
Qed.

Lemma includeRoles_rows (s : Store) (us : list User)
    (urs : list UserWithRole) :
  includeRoles s us = Some urs -> map user_row urs = us.
Proof.
  revert urs. induction us as [|u us IH]; simpl; intros urs E.
  - injection E as <-. reflexivity.
  - unfold includeRole in E.
    destruct (findRole (Int (roleId u)) s) as [r|]; [|discriminate].
    destruct (includeRoles s us) as [urs'|]; [|discriminate].
    injection E as <-. simpl. now rewrite (IH urs' eq_refl).
Qed.

Lemma mapped_rows (urs : list UserWithRole) :
  Forall2 userObject (map user_row urs) (map mapToUserResponse urs).
Proof.
  induction urs as [|ur urs IH]; simpl; constructor;
    [apply mapToUserResponse_object|exact IH].
Qed.

(** What a successful [updateUser] has found and done. *)
Lemma updateUser_sent {B : JsBuiltins} {S : Schemas} (req : Request)
    (s s' : Store) (response : JsValue) :
  run (updateUser req) s = (inr response, s') ->
  exists r data u ro,
    UserUpdateRequestSchema (body req) = Some (r, data)
    /\ findUser (WhereId (JNum (Number (params_userId req)))) s = Some u
    /\ response = mapToUserResponse (mkUserWithRole (patchUser u data ro) ro)
    /\ s' = setUsers s
              (map (fun x => if id x =? id u then patchUser u data ro else x)
                 (users s)).
Proof.
  unfold updateUser, validateAndParse.
  destruct (UserUpdateRequestSchema (body req)) as [[r data]|];
    [|discriminate].
  cbn [bind]. rewrite run_bind.
  destruct (findUser (WhereId (JNum (Number (params_userId req)))) s)
    as [u|] eqn:Hfind.
  - rewrite (run_validateUser_found _ s u Hfind).
    rewrite run_bind, run_validateExistingEmail.
    assert (run (user <- await (UserUpdate
                                  (WhereId (JNum (Number (params_userId req))))
                                  data r) ;;
                 Ret (mapToUserResponse user)) s = (inr response, s') ->
            exists ro,
              response
              = mapToUserResponse (mkUserWithRole (patchUser u data ro) ro)
              /\ s' = setUsers s
                        (map (fun x => if id x =? id u
                                       then patchUser u data ro else x)
                           (users s))) as Hwrite.
    { cbn [await bind run perform]. rewrite Hfind.
      destruct (findRole r s) as [ro|]; [|discriminate].
      destruct (emailTaken (p_email data) (Some (id u)) s); [discriminate|].
      cbn [run]. intro E. injection E as <- <-. now exists ro. }
    destruct (findUser (WhereEmail (JStr (p_email data))) s) as [holder|];
      [destruct (isSameUser _ holder); [|discriminate]|];
      intro E; destruct (Hwrite E) as [ro [Hresp Hstore]];
      exists r, data, u, ro; auto.
  - rewrite (run_validateUser_missing _ s Hfind). discriminate.
Qed.

Section ResponseFacts.
Context {B : JsBuiltins} {S : Schemas}.

(** C7: every user object sent by a User Management operation is the
    object of the user it is sent for - it has no password field, and its
    fullName is that user's first name, a single space and that user's
    last name.  [getUsers] sends one such object per user of the store, in
    order; [getUserById] the object of the stored user the path parameter
    names; [createUser] the object of the row it created from the body;
    [updateUser] the object of the updated row, which is in the store
    afterwards; [getCurrentUser] the object of the caller. *)
Theorem user_responses_shape (req : Request) (s s' : Store)
    (response : JsValue) :
  (run (getUsers req) s = (inr response, s') ->
   exists items, response = JArr items
                 /\ Forall2 userObject (users s) items)
  /\ (run (getUserById req) s = (inr response, s') ->
      exists u, In u (users s)
                /\ Number (params_userId req) = Int (id u)
                /\ userObject u response)
  /\ (run (createUser req) s = (inr response, s') ->
      exists r data u,
        UserCreateRequestSchema (body req) = Some (r, data)
        /\ In u (users s')
        /\ firstName u = d_firstName data
        /\ lastName u = d_lastName data
        /\ email u = d_email data
        /\ userObject u response)
  /\ (run (updateUser req) s = (inr response, s') ->
      exists r data u,
        UserUpdateRequestSchema (body req) = Some (r, data)
        /\ In u (users s')
        /\ Number (params_userId req) = Int (id u)
        /\ email u = p_email data
        /\ userObject u response)
  /\ (run (getCurrentUser req) s = (inr response, s') ->
      userObject (user_row (currentUser req)) response).
Proof.
  split; [|split; [|split; [|split]]].
  - unfold getUsers. cbn [await bind run perform].
    destruct (includeRoles s (users s)) as [urs|] eqn:Hurs; [|discriminate].
    cbn [run]. intro E. injection E as <- _.
    eexists. split; [reflexivity|].
    rewrite <- (includeRoles_rows s (users s) urs Hurs). apply mapped_rows.
  - unfold getUserById. rewrite run_bind.
    destruct (findUser (WhereId (JNum (Number (params_userId req)))) s)
      as [u|] eqn:Hfind.
    + rewrite (run_validateUser_found _ s u Hfind).
      cbn [await bind run perform]. rewrite Hfind. unfold includeRole.
      destruct (findRole (Int (roleId u)) s) as [r|]; [|discriminate].
      cbn [run]. intro E. injection E as <- _.
      apply find_some in Hfind as [Hin Hm]. simpl in Hm.
      apply number_is_true in Hm.
      exists u. split; [exact Hin|]. split; [exact Hm|].
      apply (mapToUserResponse_object (mkUserWithRole u r)).
    + rewrite (run_validateUser_missing _ s Hfind). discriminate.
  - intro Hrun.
    apply createUser_sent in Hrun
      as [r [data [ro [Hbody [_ [_ [Hresp Hstore]]]]]]].
    exists r, data. eexists. split; [exact Hbody|].
    split; [rewrite Hstore; cbn [users setUsers]; apply in_or_app; right;
            now left|].
    split; [reflexivity|]. split; [reflexivity|]. split; [reflexivity|].
    rewrite Hresp.
    apply (mapToUserResponse_object (mkUserWithRole _ ro)).
  - intro Hrun.
    apply updateUser_sent in Hrun
      as [r [data [u [ro [Hbody [Hfind [Hresp Hstore]]]]]]].
    apply find_some in Hfind as [Hin Hm]. simpl in Hm.
    apply number_is_true in Hm.
    exists r, data, (patchUser u data ro). split; [exact Hbody|].
    split; [|split; [exact Hm|split; [reflexivity|]]].
    + rewrite Hstore. cbn [users setUsers]. apply in_map_iff.
      exists u. split; [now rewrite Z.eqb_refl|exact Hin].
    + rewrite Hresp.
      apply (mapToUserResponse_object (mkUserWithRole _ ro)).
  - unfold getCurrentUser. cbn [run]. intro E. injection E as <- _.
    apply mapToUserResponse_object.
Qed.

End ResponseFacts.

Lemma user_responses_shape_witness :
  (exists items,
      JArr (map mapToUserResponse
              [mkUserWithRole ana admin; mkUserWithRole bo admin])
      = JArr items
      /\ Forall2 userObject [ana; bo] items)
  /\ userObject bo (mapToUserResponse (mkUserWithRole bo admin)).
Proof.
  split.
  - refine (proj1 (user_responses_shape (request "" JNull ana) store store
                     _) _).
    reflexivity.
  - refine (proj2 (proj2 (proj2 (proj2
              (user_responses_shape (request "" JNull bo) store store _))))
              _).
    reflexivity.
Defined.
